(** * Merge request approvals service of go-gitlab

    A shallow embedding of [merge_request_approvals.go]: the five methods of
    [MergeRequestApprovalsService] written as store-passing functions that
    log every call they make on the shared client, and the properties of the
    bindings proved on that embedding.

    Go values are rendered as follows: [int] as [Z], [string] as [string],
    a pointer as a heap address ([option loc] where the code hands a
    possibly [nil] pointer on), an [error] as [option Err] with [None] for
    [nil], an [interface{}] argument as a tagged union of what the file
    passes in it. The log of calls is not part of the program: it records
    what each method asked of the client, so that properties of the calls
    can be stated. *)

From Stdlib Require Import ZArith List Lia Ascii String DecimalString.
From Stdlib Require DecimalPos DecimalZ.
From stdpp Require Import gmap strings list fin_maps.

Local Open Scope string_scope.
Local Open Scope list_scope.
Local Open Scope Z_scope.

(** ** Formatting ([fmt.Sprintf] with the verbs the file uses) *)

Module Fmt.

(** An operand of [Sprintf]. *)
Inductive Arg : Type :=
| AStr (s : string)
| AInt (z : Z).

(** [%d] on a Go [int]: decimal digits, with a minus sign below zero. No
    arithmetic is done on the integers of this file, so they are taken as
    [Z] without a bound. *)
Definition itoa (z : Z) : string := NilZero.string_of_int (Z.to_int z).

(** What [%s] and [%d] print for an operand; Go prints a complaint when
    the verb does not fit the operand. *)
Definition verb_s (a : Arg) : string :=
  match a with
  | AStr s => s
  | AInt z => "%!s(int=" +:+ itoa z +:+ ")"
  end.

Definition verb_d (a : Arg) : string :=
  match a with
  | AInt z => itoa z
  | AStr s => "%!d(string=" +:+ s +:+ ")"
  end.

(** Operands left over when the format ends are reported with their type. *)
Definition extra_arg (a : Arg) : string :=
  match a with
  | AStr s => "string=" +:+ s
  | AInt z => "int=" +:+ itoa z
  end.

Fixpoint extra_args (args : list Arg) : string :=
  match args with
  | [] => ""
  | [a] => extra_arg a
  | a :: rest => extra_arg a +:+ ", " +:+ extra_args rest
  end.

(** [Sprintf format args], for the verbs that the file uses: the format is
    copied, each [%s] or [%d] is replaced by the next operand, [%%] prints
    a percent sign. *)
Fixpoint Sprintf (format : string) (args : list Arg) : string :=
  match format with
  | EmptyString =>
      match args with
      | [] => ""
      | _ => "%!(EXTRA " +:+ extra_args args +:+ ")"
      end
  | String "%"%char (String "s"%char rest) =>
      match args with
      | a :: args' => verb_s a +:+ Sprintf rest args'
      | [] => "%!s(MISSING)" +:+ Sprintf rest []
      end
  | String "%"%char (String "d"%char rest) =>
      match args with
      | a :: args' => verb_d a +:+ Sprintf rest args'
      | [] => "%!d(MISSING)" +:+ Sprintf rest []
      end
  | String "%"%char (String "%"%char rest) => String "%"%char (Sprintf rest args)
  | String c rest => String c (Sprintf rest args)
  end.

End Fmt.

(** ** Data model *)

(** Heap addresses: what a Go pointer holds. *)
Abbreviation loc := positive.

(** A run either returns or panics (a [nil] receiver is dereferenced). *)
Inductive Result (A : Type) : Type :=
| Ok (a : A)
| Panic.

Arguments Ok {A} a.
Arguments Panic {A}.

(** Types that the package declares in other files: [time.Time],
    [BasicUser], [MergeRequest], [OptionFunc], [Request], [Response], the
    errors, what a project identifier ([pid interface{}]) may hold, what a
    [*Client] points to, and the world behind the client (connection,
    server). *)
Class PackageTypes : Type := {
  Time : Type;
  BasicUser : Type;
  MergeRequest : Type;
  PID : Type;
  Err : Type;
  OptionFunc : Type;
  Request : Type;
  Response : Type;
  ClientPtr : Type;
  World : Type
}.

Section Model.

Context {T : PackageTypes}.

Record MergeRequestApprovalsService : Type := {
  client : ClientPtr
}.

Record MergeRequestApproverUser : Type := {
  User : option BasicUser
}.

Record MergeRequestApproverGroup_Group : Type := {
  Group_ID : Z;
  Group_Name : string;
  Group_Path : string;
  Group_Description : string;
  Group_Visibility : string;
  Group_AvatarURL : string;
  Group_WebURL : string;
  Group_FullName : string;
  Group_FullPath : string;
  Group_LFSEnabled : bool;
  Group_RequestAccessEnabled : bool
}.

Record MergeRequestApproverGroup : Type := {
  Group : MergeRequestApproverGroup_Group
}.

Record MergeRequestApprovals : Type := {
  ID : Z;
  ProjectID : Z;
  Title : string;
  Description : string;
  State : string;
  CreatedAt : option Time;
  UpdatedAt : option Time;
  MergeStatus : string;
  ApprovalsBeforeMerge : Z;
  ApprovalsRequired : Z;
  ApprovalsLeft : Z;
  ApprovedBy : list (option MergeRequestApproverUser);
  Approvers : list (option MergeRequestApproverUser);
  ApproverGroups : list (option MergeRequestApproverGroup);
  SuggestedApprovers : list (option BasicUser)
}.

(** [new(MergeRequestApprovals)]. *)
Definition zeroMergeRequestApprovals : MergeRequestApprovals :=
  {| ID := 0; ProjectID := 0; Title := ""; Description := ""; State := "";
     CreatedAt := None; UpdatedAt := None; MergeStatus := "";
     ApprovalsBeforeMerge := 0; ApprovalsRequired := 0; ApprovalsLeft := 0;
     ApprovedBy := []; Approvers := []; ApproverGroups := [];
     SuggestedApprovers := [] |}.

Record ApproveMergeRequestOptions : Type := {
  SHA : option string
}.

Record ChangeMergeRequestApprovalConfigurationOptions : Type := {
  Opt_ApprovalsRequired : option Z
}.

Record ChangeMergeRequestAllowedApproversOptions : Type := {
  ApproverIDs : list Z;
  ApproverGroupIDs : list Z
}.

Record ProjectMergeRequestApprovalSettings : Type := {
  Set_ApprovalsBeforeMerge : option Z;
  DisableOverridingApproversPerMergeRequest : option bool;
  MergeRequestsAuthorApproval : option bool;
  MergeRequestsDisableCommittersApproval : option bool;
  ResetApprovalsOnPush : option bool
}.

(** What a heap cell holds. *)
Inductive Object : Type :=
| OService (v : MergeRequestApprovalsService)
| OApproveMergeRequestOptions (v : ApproveMergeRequestOptions)
| OChangeMergeRequestApprovalConfigurationOptions
    (v : ChangeMergeRequestApprovalConfigurationOptions)
| OChangeMergeRequestAllowedApproversOptions
    (v : ChangeMergeRequestAllowedApproversOptions)
| OProjectMergeRequestApprovalSettings (v : ProjectMergeRequestApprovalSettings)
| OMergeRequestApprovals (v : MergeRequestApprovals)
| OMergeRequest (v : MergeRequest).

(** The memory the program shares with the client, and the world behind
    the client (connection, server). *)
Record Store : Type := {
  heap : gmap loc Object;
  world : World
}.

(** The [opt interface{}] argument of [NewRequest]: the untyped [nil] that
    [UnapproveMergeRequest] passes, or a pointer (possibly [nil]) to one of
    the option structs. *)
Inductive Body : Type :=
| BodyNil
| BodyApproveMergeRequestOptions (p : option loc)
| BodyChangeMergeRequestApprovalConfigurationOptions (p : option loc)
| BodyChangeMergeRequestAllowedApproversOptions (p : option loc)
| BodyProjectMergeRequestApprovalSettings (p : option loc).

(** The [v interface{}] argument of [Do]: where the response is decoded. *)
Inductive Target : Type :=
| TargetNil
| TargetMergeRequestApprovals (p : loc)
| TargetMergeRequest (p : loc).

Definition target_loc (v : Target) : option loc :=
  match v with
  | TargetNil => None
  | TargetMergeRequestApprovals p | TargetMergeRequest p => Some p
  end.

End Model.

(** ** The package functions and the client's methods

    [parseID] and [pathEscape] are functions of the package, [NewRequest]
    and [Do] are methods of [*Client]; a method of the client may read and
    write the store. *)
Class Package {T : PackageTypes} : Type := {
  zeroMergeRequest : MergeRequest;
  parseID : PID -> string * option Err;
  pathEscape : string -> string;
  NewRequest :
    ClientPtr -> string -> string -> Body -> list OptionFunc ->
    Store -> option Request * option Err * Store;
  Do :
    ClientPtr -> option Request -> Target ->
    Store -> option Response * option Err * Store
}.

Section Service.

Context {T : PackageTypes} {P : Package}.

(** ** Calls on the client, as a method run logs them *)

Inductive Event : Type :=
| EvNewRequest (c : ClientPtr) (method u : string) (opt : Body)
    (options : list OptionFunc) (req : option Request) (err : option Err)
| EvDo (c : ClientPtr) (req : option Request) (v : Target)
    (resp : option Response) (err : option Err).

Definition M (A : Type) : Type := Store -> Result A * Store * list Event.

Definition ret {A : Type} (a : A) : M A := fun st => (Ok a, st, []).

Definition bind {A B : Type} (m : M A) (f : A -> M B) : M B :=
  fun st =>
    let '(r1, st1, evs1) := m st in
    match r1 with
    | Ok a => let '(r2, st2, evs2) := f a st1 in (r2, st2, evs1 ++ evs2)
    | Panic => (Panic, st1, evs1)
    end.

Notation "'let*' x ':=' c1 'in' c2" := (bind c1 (fun x => c2))
  (at level 10, x pattern, c1 at level 100, c2 at level 200).

(** [s.client]: reading the field through a receiver that points to no
    service struct (a [nil] receiver) panics. *)
Definition load_client (s : loc) : M ClientPtr :=
  fun st =>
    match heap st !! s with
    | Some (OService v) => (Ok (client v), st, [])
    | _ => (Panic, st, [])
    end.

(** [new(T)]: a fresh cell holding the zero value. *)
Definition alloc (zero : Object) (st : Store) : Store :=
  {| heap := <[fresh (dom (heap st)) := zero]> (heap st); world := world st |}.

Definition new (zero : Object) : M loc :=
  fun st => (Ok (fresh (dom (heap st))), alloc zero st, []).

Definition call_NewRequest (c : ClientPtr) (method u : string) (opt : Body)
    (options : list OptionFunc) : M (option Request * option Err) :=
  fun st =>
    let '(req, err, st') := NewRequest c method u opt options st in
    (Ok (req, err), st', [EvNewRequest c method u opt options req err]).

Definition call_Do (c : ClientPtr) (req : option Request) (v : Target)
    : M (option Response * option Err) :=
  fun st =>
    let '(resp, err, st') := Do c req v st in
    (Ok (resp, err), st', [EvDo c req v resp err]).

(** ** The methods *)

Definition ApproveMergeRequest (s : loc) (pid : PID) (mr : Z)
    (opt : option loc) (options : list OptionFunc)
    : M (option loc * option Response * option Err) :=
  let '(project, err) := parseID pid in
  match err with
  | Some _ => ret (None, None, err)
  | None =>
      let u := Fmt.Sprintf "projects/%s/merge_requests/%d/approve"
                 [Fmt.AStr (pathEscape project); Fmt.AInt mr] in
      let* c := load_client s in
      let* (req, err) := call_NewRequest c "POST" u
                       (BodyApproveMergeRequestOptions opt) options in
      match err with
      | Some _ => ret (None, None, err)
      | None =>
          let* m := new (OMergeRequestApprovals zeroMergeRequestApprovals) in
          let* c := load_client s in
          let* (resp, err) := call_Do c req (TargetMergeRequestApprovals m) in
          match err with
          | Some _ => ret (None, resp, err)
          | None => ret (Some m, resp, err)
          end
      end
  end.

Definition UnapproveMergeRequest (s : loc) (pid : PID) (mr : Z)
    (options : list OptionFunc) : M (option Response * option Err) :=
  let '(project, err) := parseID pid in
  match err with
  | Some _ => ret (None, err)
  | None =>
      let u := Fmt.Sprintf "projects/%s/merge_requests/%d/unapprove"
                 [Fmt.AStr (pathEscape project); Fmt.AInt mr] in
      let* c := load_client s in
      let* (req, err) := call_NewRequest c "POST" u BodyNil options in
      match err with
      | Some _ => ret (None, err)
      | None =>
          let* c := load_client s in
          call_Do c req TargetNil
      end
  end.

Definition ChangeApprovalConfiguration (s : loc) (pid : PID)
    (mergeRequestIID : Z) (opt : option loc) (options : list OptionFunc)
    : M (option loc * option Response * option Err) :=
  let '(project, err) := parseID pid in
  match err with
  | Some _ => ret (None, None, err)
  | None =>
      let u := Fmt.Sprintf "projects/%s/merge_requests/%d/approvals"
                 [Fmt.AStr (pathEscape project); Fmt.AInt mergeRequestIID] in
      let* c := load_client s in
      let* (req, err) := call_NewRequest c "POST" u
                       (BodyChangeMergeRequestApprovalConfigurationOptions opt)
                       options in
      match err with
      | Some _ => ret (None, None, err)
      | None =>
          let* m := new (OMergeRequest zeroMergeRequest) in
          let* c := load_client s in
          let* (resp, err) := call_Do c req (TargetMergeRequest m) in
          match err with
          | Some _ => ret (None, resp, err)
          | None => ret (Some m, resp, err)
          end
      end
  end.

Definition ChangeAllowedApprovers (s : loc) (pid : PID)
    (mergeRequestIID : Z) (opt : option loc) (options : list OptionFunc)
    : M (option loc * option Response * option Err) :=
  let '(project, err) := parseID pid in
  match err with
  | Some _ => ret (None, None, err)
  | None =>
      let u := Fmt.Sprintf "projects/%s/merge_requests/%d/approvers"
                 [Fmt.AStr (pathEscape project); Fmt.AInt mergeRequestIID] in
      let* c := load_client s in
      let* (req, err) := call_NewRequest c "PUT" u
                       (BodyChangeMergeRequestAllowedApproversOptions opt)
                       options in
      match err with
      | Some _ => ret (None, None, err)
      | None =>
          let* m := new (OMergeRequest zeroMergeRequest) in
          let* c := load_client s in
          let* (resp, err) := call_Do c req (TargetMergeRequest m) in
          match err with
          | Some _ => ret (None, resp, err)
          | None => ret (Some m, resp, err)
          end
      end
  end.

Definition ChangeProjectMergeRequestApprovalConfiguration (s : loc)
    (pid : PID) (opt : option loc) (options : list OptionFunc)
    : M (option loc * option Response * option Err) :=
  let '(project, err) := parseID pid in
  match err with
  | Some _ => ret (None, None, err)
  | None =>
      let u := Fmt.Sprintf "projects/%s/approvals"
                 [Fmt.AStr (pathEscape project)] in
      let* c := load_client s in
      let* (req, err) := call_NewRequest c "POST" u
                       (BodyProjectMergeRequestApprovalSettings opt) options in
      match err with
      | Some _ => ret (None, None, err)
      | None =>
          let* m := new (OMergeRequestApprovals zeroMergeRequestApprovals) in
          let* c := load_client s in
          let* (resp, err) := call_Do c req (TargetMergeRequestApprovals m) in
          match err with
          | Some _ => ret (None, resp, err)
          | None => ret (Some m, resp, err)
          end
      end
  end.

(** The client leaves the caller's objects alone: [NewRequest] keeps every
    object of the heap as it is, and [Do] writes at most to the struct it is
    told to decode into. *)
Definition client_keeps_objects : Prop :=
  (forall c method u opt options st req err st',
      NewRequest c method u opt options st = (req, err, st') ->
      forall l obj, heap st !! l = Some obj -> heap st' !! l = Some obj)
  /\ (forall c req v st resp err st',
        Do c req v st = (resp, err, st') ->
        forall l obj, heap st !! l = Some obj -> target_loc v <> Some l ->
                      heap st' !! l = Some obj).

(** The logs of the five methods run on the same arguments. *)
Definition logs_of_methods (s : loc) (pid : PID) (mr : Z) (opt : option loc)
    (options : list OptionFunc) (st : Store) : list (list Event) :=
  [ (ApproveMergeRequest s pid mr opt options st).2;
    (UnapproveMergeRequest s pid mr options st).2;
    (ChangeApprovalConfiguration s pid mr opt options st).2;
    (ChangeAllowedApprovers s pid mr opt options st).2;
    (ChangeProjectMergeRequestApprovalConfiguration s pid opt options st).2 ].

(** The runs of the four methods that return a decoded struct. *)
Definition struct_runs (s : loc) (pid : PID) (mr : Z) (opt : option loc)
    (options : list OptionFunc) (st : Store)
    : list (Result (option loc * option Response * option Err)
            * Store * list Event) :=
  [ ApproveMergeRequest s pid mr opt options st;
    ChangeApprovalConfiguration s pid mr opt options st;
    ChangeAllowedApprovers s pid mr opt options st;
    ChangeProjectMergeRequestApprovalConfiguration s pid opt options st ].

(** The client frees nothing: an address that holds an object before
    [NewRequest] or [Do] holds one after it. *)
Definition client_frees_nothing : Prop :=
  (forall c method u opt options st req err st',
      NewRequest c method u opt options st = (req, err, st') ->
      forall l, is_Some (heap st !! l) -> is_Some (heap st' !! l))
  /\ (forall c req v st resp err st',
        Do c req v st = (resp, err, st') ->
        forall l, is_Some (heap st !! l) -> is_Some (heap st' !! l)).

End Service.

(** ** Path segments

    [segments path] is [strings.Split(path, "/")]; it is used to say which
    segments a request path has. *)
Fixpoint segments (path : string) : list string :=
  match path with
  | EmptyString => [""]
  | String c rest =>
      if Ascii.eqb c "/" then "" :: segments rest
      else
        match segments rest with
        | seg :: segs => String c seg :: segs
        | [] => [String c ""]
        end
  end.

Fixpoint no_slash (s : string) : bool :=
  match s with
  | EmptyString => true
  | String c rest => negb (Ascii.eqb c "/") && no_slash rest
  end.

(** ** Reading the log of a run *)

Section Log.

Context {T : PackageTypes}.

Definition is_Do (ev : Event) : bool :=
  match ev with
  | EvDo _ _ _ _ _ => true
  | EvNewRequest _ _ _ _ _ _ _ => false
  end.

(** How many request/response cycles a run performed. *)
Fixpoint count_Do (evs : list Event) : nat :=
  match evs with
  | [] => 0%nat
  | ev :: rest => ((if is_Do ev then 1 else 0) + count_Do rest)%nat
  end.

(** The error a call on the client handed back. *)
Definition event_error (ev : Event) : option Err :=
  match ev with
  | EvNewRequest _ _ _ _ _ _ err => err
  | EvDo _ _ _ _ err => err
  end.

(** The struct a call on the client was told to decode into. *)
Definition event_target (ev : Event) : option loc :=
  match ev with
  | EvDo _ _ v _ _ => target_loc v
  | EvNewRequest _ _ _ _ _ _ _ => None
  end.

(** The HTTP verb of a request built during the run. *)
Definition event_method (ev : Event) : option string :=
  match ev with
  | EvNewRequest _ method _ _ _ _ _ => Some method
  | EvDo _ _ _ _ _ => None
  end.

(** The path of a request built during the run. *)
Definition event_url (ev : Event) : option string :=
  match ev with
  | EvNewRequest _ _ u _ _ _ _ => Some u
  | EvDo _ _ _ _ _ => None
  end.

(** The path that the first call of a run asks for. *)
Definition first_url (evs : list Event) : option string :=
  match evs with
  | ev :: _ => event_url ev
  | [] => None
  end.

End Log.

(** ** A sample package

    A small client and server to run the methods on: project identifiers
    are integers or strings, anything else is refused; an option function
    either passes or fails with a message; the server answers every
    request with the status it is set to. *)
Module Sample.

Inductive SamplePID : Type :=
| PidInt (n : Z)
| PidString (s : string)
| PidOther.

Record SampleRequest : Type := {
  req_method : string;
  req_url : string;
  req_body : Body
}.

Record SampleWorld : Type := {
  status : Z;
  received : list SampleRequest
}.

#[global] Instance types : PackageTypes := {|
  Time := Z;
  BasicUser := string;
  MergeRequest := Z;
  PID := SamplePID;
  Err := string;
  OptionFunc := option string;
  Request := SampleRequest;
  Response := Z;
  ClientPtr := positive;
  World := SampleWorld
|}.

Definition sample_parseID (pid : SamplePID) : string * option string :=
  match pid with
  | PidInt n => (Fmt.itoa n, None)
  | PidString s => (s, None)
  | PidOther => ("", Some "invalid ID type")
  end.

Fixpoint sample_pathEscape (s : string) : string :=
  match s with
  | EmptyString => ""
  | String c rest =>
      if Ascii.eqb c "/" then "%2F" +:+ sample_pathEscape rest
      else String c (sample_pathEscape rest)
  end.

Fixpoint first_failure (options : list (option string)) : option string :=
  match options with
  | [] => None
  | Some e :: _ => Some e
  | None :: rest => first_failure rest
  end.

Definition sample_NewRequest (c : positive) (method u : string) (opt : Body)
    (options : list (option string)) (st : Store)
    : option SampleRequest * option string * Store :=
  match first_failure options with
  | Some e => (None, Some e, st)
  | None =>
      (Some {| req_method := method; req_url := u; req_body := opt |}, None, st)
  end.

Definition decoded_approvals : MergeRequestApprovals :=
  {| ID := 7; ProjectID := 5; Title := "Update"; Description := "";
     State := "opened"; CreatedAt := None; UpdatedAt := None;
     MergeStatus := "can_be_merged"; ApprovalsBeforeMerge := 1;
     ApprovalsRequired := 1; ApprovalsLeft := 0; ApprovedBy := [];
     Approvers := []; ApproverGroups := []; SuggestedApprovers := [] |}.

Definition decode (v : Target) (h : gmap loc Object) : gmap loc Object :=
  match v with
  | TargetNil => h
  | TargetMergeRequestApprovals p =>
      <[p := OMergeRequestApprovals decoded_approvals]> h
  | TargetMergeRequest p => <[p := OMergeRequest 7]> h
  end.

Definition sample_Do (c : positive) (req : option SampleRequest) (v : Target)
    (st : Store) : option Z * option string * Store :=
  match req with
  | None => (None, Some "nil request", st)
  | Some r =>
      let w := {| status := status (world st);
                  received := received (world st) ++ [r] |} in
      if status (world st) =? 0 then
        (None, Some "connection refused", {| heap := heap st; world := w |})
      else if 400 <=? status (world st) then
        (Some (status (world st)), Some "request failed",
         {| heap := heap st; world := w |})
      else
        (Some (status (world st)), None,
         {| heap := decode v (heap st); world := w |})
  end.

#[global] Instance package : Package := {|
  zeroMergeRequest := 0;
  parseID := sample_parseID;
  pathEscape := sample_pathEscape;
  NewRequest := sample_NewRequest;
  Do := sample_Do
|}.

(** A store holding the service struct at address 1 (its client is at
    address 9) and one struct of options of each kind at addresses 2 to 5;
    the server answers with [code]. *)
Definition store (code : Z) : Store :=
  {| heap :=
       {[ 1%positive := OService {| client := 9%positive |};
          2%positive := OApproveMergeRequestOptions {| SHA := Some "abc" |};
          3%positive := OChangeMergeRequestApprovalConfigurationOptions
                          {| Opt_ApprovalsRequired := Some 2 |};
          4%positive := OChangeMergeRequestAllowedApproversOptions
                          {| ApproverIDs := [10; 11]; ApproverGroupIDs := [3] |};
          5%positive := OProjectMergeRequestApprovalSettings
                          {| Set_ApprovalsBeforeMerge := Some 1;
                             DisableOverridingApproversPerMergeRequest := None;
                             MergeRequestsAuthorApproval := Some false;
                             MergeRequestsDisableCommittersApproval := None;
                             ResetApprovalsOnPush := Some true |} ]};
     world := {| status := code; received := [] |} |}.

End Sample.

(** * Properties *)

Section Properties.

Context {T : PackageTypes} {P : Package}.

(** Unfold a method down to the calls it makes. *)
Ltac unfold_method :=
  unfold ApproveMergeRequest, UnapproveMergeRequest,
    ChangeApprovalConfiguration, ChangeAllowedApprovers,
    ChangeProjectMergeRequestApprovalConfiguration,
    bind, load_client, new, call_NewRequest, call_Do, ret.

(** Follow every branch a run can take. *)
Ltac run_cases :=
  unfold_method;
  repeat (cbv beta iota zeta;
          match goal with
          | |- context [match ?x with _ => _ end] =>
              lazymatch x with
              | context [match _ with _ => _ end] => fail
              | _ => destruct x eqn:?
              end
          end);
  cbv beta iota zeta.

(** Settle a goal about a log that has been computed. *)
Ltac close_log :=
  repeat split; intros;
  repeat match goal with
  | H : _ \/ _ |- _ => destruct H
  | H : False |- _ => destruct H
  | H : _ = ?ev |- _ => is_var ev; subst ev
  | H : _ /\ _ |- _ => destruct H
  end;
  cbn [is_Do event_error event_target event_method target_loc fst snd] in *;
  try congruence; try lia.

(** C9: when [parseID] rejects the project identifier, every method returns
    the parse error with a nil [Response] and a nil result, leaves the store
    as it was and calls neither [NewRequest] nor [Do]. *)
Theorem rejected_pid_returns_parse_error_without_effect
    (s : loc) (pid : PID) (mr : Z) (opt : option loc)
    (options : list OptionFunc) (st : Store) (project : string) (e : Err) :
  parseID pid = (project, Some e) ->
  ApproveMergeRequest s pid mr opt options st
    = (Ok (None, None, Some e), st, [])
  /\ UnapproveMergeRequest s pid mr options st = (Ok (None, Some e), st, [])
  /\ ChangeApprovalConfiguration s pid mr opt options st
    = (Ok (None, None, Some e), st, [])
  /\ ChangeAllowedApprovers s pid mr opt options st
    = (Ok (None, None, Some e), st, [])
  /\ ChangeProjectMergeRequestApprovalConfiguration s pid opt options st
    = (Ok (None, None, Some e), st, []).
Proof.
  intros Hparse. unfold_method. rewrite Hparse. repeat split.
Qed.

(** C7: a run of any method performs at most one request/response cycle,
    and none at all when the project identifier is rejected or when
    building the request fails. *)
Theorem at_most_one_request_cycle
    (s : loc) (pid : PID) (mr : Z) (opt : option loc)
    (options : list OptionFunc) (st : Store) :
  Forall
    (fun evs =>
       (count_Do evs <= 1)%nat
       /\ (forall e, (parseID pid).2 = Some e -> count_Do evs = 0%nat)
       /\ (forall ev e, In ev evs -> is_Do ev = false ->
             event_error ev = Some e -> count_Do evs = 0%nat))
    (logs_of_methods s pid mr opt options st).
Proof.
  unfold logs_of_methods. repeat (apply Forall_cons_2 || apply Forall_nil_2).
  all: run_cases; cbn [snd fst app count_Do is_Do Nat.add In]; close_log.
Qed.

(** C2, amended: an error returned by a method is the error of [parseID]
    or an error that [NewRequest] or [Do] handed back during the run. *)
Theorem returned_error_comes_from_parseID_or_client
    (s : loc) (pid : PID) (mr : Z) (opt : option loc)
    (options : list OptionFunc) (st : Store) (e : Err) :
  let from_callee (evs : list Event) :=
    (parseID pid).2 = Some e
    \/ exists ev, In ev evs /\ event_error ev = Some e in
  (forall r, (ApproveMergeRequest s pid mr opt options st).1.1 = Ok r ->
     r.2 = Some e ->
     from_callee (ApproveMergeRequest s pid mr opt options st).2)
  /\ (forall r, (UnapproveMergeRequest s pid mr options st).1.1 = Ok r ->
       r.2 = Some e ->
       from_callee (UnapproveMergeRequest s pid mr options st).2)
  /\ (forall r, (ChangeApprovalConfiguration s pid mr opt options st).1.1 = Ok r ->
       r.2 = Some e ->
       from_callee (ChangeApprovalConfiguration s pid mr opt options st).2)
  /\ (forall r, (ChangeAllowedApprovers s pid mr opt options st).1.1 = Ok r ->
       r.2 = Some e ->
       from_callee (ChangeAllowedApprovers s pid mr opt options st).2)
  /\ (forall r,
       (ChangeProjectMergeRequestApprovalConfiguration s pid opt options st).1.1
         = Ok r ->
       r.2 = Some e ->
       from_callee
         (ChangeProjectMergeRequestApprovalConfiguration s pid opt options st).2).
Proof.
  intros from_callee. subst from_callee. repeat split.
  all: run_cases; cbn [snd fst app In]; intros r Hr He.
  all: try discriminate Hr.
  all: injection Hr as <-; cbn [snd fst] in He.
  all: try discriminate He.
  all: first
    [ left; congruence
    | right; eexists; split;
      [ left; reflexivity | cbn [event_error]; congruence ]
    | right; eexists; split;
      [ right; left; reflexivity | cbn [event_error]; congruence ] ].
Qed.

Lemma alloc_keeps (zero : Object) (st : Store) (l : loc) (obj : Object) :
  heap st !! l = Some obj -> heap (alloc zero st) !! l = Some obj.
Proof.
  intros Hl. unfold alloc. cbn [heap].
  rewrite lookup_insert_ne; [ exact Hl | ].
  intros Heq. apply (is_fresh (dom (heap st))).
  rewrite Heq. apply elem_of_dom. eauto.
Qed.

Lemma fresh_is_not_allocated (st : Store) (l : loc) (obj : Object) :
  heap st !! l = Some obj -> Some (fresh (dom (heap st))) <> Some l.
Proof.
  intros Hl Heq. injection Heq as Heq.
  apply (is_fresh (dom (heap st))).
  rewrite Heq. apply elem_of_dom. eauto.
Qed.

(** C8: with a client that leaves the caller's objects alone, every object
    in the heap before a call (the service struct, the struct of options)
    is the same after it. *)
Theorem methods_leave_objects_unchanged
    (s : loc) (pid : PID) (mr : Z) (opt : option loc)
    (options : list OptionFunc) (st : Store) (l : loc) (obj : Object) :
  client_keeps_objects ->
  heap st !! l = Some obj ->
  heap (ApproveMergeRequest s pid mr opt options st).1.2 !! l = Some obj
  /\ heap (UnapproveMergeRequest s pid mr options st).1.2 !! l = Some obj
  /\ heap (ChangeApprovalConfiguration s pid mr opt options st).1.2 !! l
     = Some obj
  /\ heap (ChangeAllowedApprovers s pid mr opt options st).1.2 !! l = Some obj
  /\ heap (ChangeProjectMergeRequestApprovalConfiguration s pid opt options
             st).1.2 !! l = Some obj.
Proof.
  intros [HNew HDo] Hl. repeat split.
  all: run_cases; cbn [snd fst].
  all: try exact Hl.
  all: match goal with
       | H : NewRequest _ _ _ _ _ _ = _ |- _ =>
           pose proof (HNew _ _ _ _ _ _ _ _ _ H _ _ Hl) as Hl1
       end.
  all: try exact Hl1.
  all: try (apply alloc_keeps; exact Hl1).
  all: match goal with
       | H : Do _ _ _ _ = _ |- _ =>
           apply (HDo _ _ _ _ _ _ _ H);
           [ try apply alloc_keeps; exact Hl1
           | cbn [target_loc];
             first [ discriminate | apply fresh_is_not_allocated with obj; exact Hl1 ] ]
       end.
Qed.

(** The paths that the formats of the five methods produce. *)
Lemma approve_path (project : string) (mr : Z) :
  Fmt.Sprintf "projects/%s/merge_requests/%d/approve"
    [Fmt.AStr project; Fmt.AInt mr]
  = "projects/" +:+ project +:+ "/merge_requests/" +:+ Fmt.itoa mr +:+ "/approve".
Proof. reflexivity. Qed.

Lemma unapprove_path (project : string) (mr : Z) :
  Fmt.Sprintf "projects/%s/merge_requests/%d/unapprove"
    [Fmt.AStr project; Fmt.AInt mr]
  = "projects/" +:+ project +:+ "/merge_requests/" +:+ Fmt.itoa mr
    +:+ "/unapprove".
Proof. reflexivity. Qed.

Lemma approvals_path (project : string) (mr : Z) :
  Fmt.Sprintf "projects/%s/merge_requests/%d/approvals"
    [Fmt.AStr project; Fmt.AInt mr]
  = "projects/" +:+ project +:+ "/merge_requests/" +:+ Fmt.itoa mr
    +:+ "/approvals".
Proof. reflexivity. Qed.

Lemma approvers_path (project : string) (mr : Z) :
  Fmt.Sprintf "projects/%s/merge_requests/%d/approvers"
    [Fmt.AStr project; Fmt.AInt mr]
  = "projects/" +:+ project +:+ "/merge_requests/" +:+ Fmt.itoa mr
    +:+ "/approvers".
Proof. reflexivity. Qed.

Lemma project_approvals_path (project : string) :
  Fmt.Sprintf "projects/%s/approvals" [Fmt.AStr project]
  = "projects/" +:+ project +:+ "/approvals".
Proof. reflexivity. Qed.

(** Run a method whose identifier is accepted and whose receiver is a
    service struct up to the request it builds. *)
Ltac run_to_NewRequest Hparse Hs :=
  unfold_method; rewrite Hparse; cbv beta iota zeta; rewrite Hs;
  cbv beta iota zeta;
  rewrite ?approve_path, ?unapprove_path, ?approvals_path, ?approvers_path,
    ?project_approvals_path.

(** The first call of such a run is the request it builds, however the run
    goes on. *)
Ltac first_call Hparse Hs :=
  let req := fresh "req" in
  let err := fresh "err" in
  let st1 := fresh "st" in
  run_to_NewRequest Hparse Hs;
  match goal with
  | |- context [NewRequest ?c ?v ?u ?b ?o ?s] =>
      destruct (NewRequest c v u b o s) as [[req err] st1]
  end;
  cbn [fst snd]; destruct err; [ reflexivity | ];
  cbv beta iota zeta;
  repeat match goal with
  | |- context [match ?x with _ => _ end] =>
      lazymatch x with
      | context [match _ with _ => _ end] => fail
      | _ => destruct x
      end
  end; reflexivity.

(** The run in which the request is built and [Do] succeeds. *)
Ltac successful_run Hparse Hs :=
  let Hbuilt := fresh "Hbuilt" in
  let Hs1 := fresh "Hs1" in
  let HDo := fresh "HDo" in
  let m := fresh "m" in
  intros ? ? ? ? ? Hbuilt Hs1 m HDo; subst m;
  run_to_NewRequest Hparse Hs; rewrite Hbuilt; cbv beta iota zeta;
  rewrite (alloc_keeps _ _ _ _ Hs1); cbv beta iota zeta;
  rewrite HDo; reflexivity.

(** C3: for an accepted project identifier, [ApproveMergeRequest] first
    builds a POST request for [projects/<id>/merge_requests/<mr>/approve]
    with the options it was given, and when the request is built and [Do]
    succeeds it returns the [MergeRequestApprovals] struct that [Do] decoded
    into, with the response. *)
Theorem ApproveMergeRequest_posts_to_approve_path
    (s : loc) (pid : PID) (mr : Z) (opt : option loc)
    (options : list OptionFunc) (st : Store)
    (project : string) (svc : MergeRequestApprovalsService) :
  parseID pid = (project, None) ->
  heap st !! s = Some (OService svc) ->
  let u := "projects/" +:+ pathEscape project +:+ "/merge_requests/"
           +:+ Fmt.itoa mr +:+ "/approve" in
  let body := BodyApproveMergeRequestOptions opt in
  let built := NewRequest (client svc) "POST" u body options st in
  hd_error (ApproveMergeRequest s pid mr opt options st).2
    = Some (EvNewRequest (client svc) "POST" u body options
              built.1.1 built.1.2)
  /\ (forall req st1 svc1 resp st2,
        built = (req, None, st1) ->
        heap st1 !! s = Some (OService svc1) ->
        let m := fresh (dom (heap st1)) in
        Do (client svc1) req (TargetMergeRequestApprovals m)
          (alloc (OMergeRequestApprovals zeroMergeRequestApprovals) st1)
          = (resp, None, st2) ->
        ApproveMergeRequest s pid mr opt options st
        = (Ok (Some m, resp, None), st2,
           [EvNewRequest (client svc) "POST" u body options req None;
            EvDo (client svc1) req (TargetMergeRequestApprovals m) resp None])).
Proof.
  intros Hparse Hs u body built. subst u body built. split.
  - first_call Hparse Hs.
  - successful_run Hparse Hs.
Qed.

(** Segments of a path put together from a slash-free piece and a rest. *)
Lemma segments_slash (piece rest : string) :
  no_slash piece = true ->
  segments (piece +:+ String "/" rest) = piece :: segments rest.
Proof.
  induction piece as [|c piece IH]; cbn [no_slash].
  - intros _. reflexivity.
  - intros Hc. apply andb_prop in Hc as [Hc Hpiece].
    apply negb_true_iff in Hc.
    change (String c piece +:+ String "/" rest)
      with (String c (piece +:+ String "/" rest)).
    cbn [segments]. rewrite Hc, (IH Hpiece). reflexivity.
Qed.


(** C6: for an accepted project identifier,
    [ChangeProjectMergeRequestApprovalConfiguration] first builds a POST
    request for [projects/<id>/approvals], a path of three segments (the
    middle one is the escaped identifier; there is no merge request in
    it), and when the request is built and [Do] succeeds it returns the
    [MergeRequestApprovals] struct that [Do] decoded into. *)
Theorem ChangeProjectMergeRequestApprovalConfiguration_posts_to_project_path
    (s : loc) (pid : PID) (opt : option loc)
    (options : list OptionFunc) (st : Store)
    (project : string) (svc : MergeRequestApprovalsService) :
  parseID pid = (project, None) ->
  heap st !! s = Some (OService svc) ->
  let u := "projects/" +:+ pathEscape project +:+ "/approvals" in
  let body := BodyProjectMergeRequestApprovalSettings opt in
  let built := NewRequest (client svc) "POST" u body options st in
  hd_error (ChangeProjectMergeRequestApprovalConfiguration s pid opt options
              st).2
    = Some (EvNewRequest (client svc) "POST" u body options
              built.1.1 built.1.2)
  /\ (forall req st1 svc1 resp st2,
        built = (req, None, st1) ->
        heap st1 !! s = Some (OService svc1) ->
        let m := fresh (dom (heap st1)) in
        Do (client svc1) req (TargetMergeRequestApprovals m)
          (alloc (OMergeRequestApprovals zeroMergeRequestApprovals) st1)
          = (resp, None, st2) ->
        ChangeProjectMergeRequestApprovalConfiguration s pid opt options st
        = (Ok (Some m, resp, None), st2,
           [EvNewRequest (client svc) "POST" u body options req None;
            EvDo (client svc1) req (TargetMergeRequestApprovals m) resp None]))
  /\ (no_slash (pathEscape project) = true ->
      segments u = ["projects"; pathEscape project; "approvals"]).
Proof.
  intros Hparse Hs u body built. subst u body built. split; [ | split ].
  - first_call Hparse Hs.
  - successful_run Hparse Hs.
  - intros Hesc.
    change ("projects/" +:+ pathEscape project +:+ "/approvals")
      with ("projects" +:+ String "/" (pathEscape project +:+ String "/" "approvals")).
    rewrite (segments_slash "projects") by reflexivity.
    rewrite (segments_slash _ _ Hesc). reflexivity.
Qed.

(** ** What a call returns when [Do] has been reached *)

Lemma fresh_not_in_heap (st : Store) :
  heap st !! fresh (dom (heap st)) = None.
Proof. apply not_elem_of_dom. apply is_fresh. Qed.

(** The run in which the request is built and [Do] fails. *)
Ltac failed_Do_run Hparse Hs Hs1 :=
  let Hbuilt := fresh "Hbuilt" in
  let HDo := fresh "HDo" in
  intros Hbuilt HDo;
  run_to_NewRequest Hparse Hs; rewrite Hbuilt; cbv beta iota zeta;
  first [ rewrite (alloc_keeps _ _ _ _ Hs1) | rewrite Hs1 ];
  cbv beta iota zeta; rewrite HDo; reflexivity.

(** C1, amended: a successful call of a method that returns a struct has
    built its request, allocated a new struct at an address that held
    nothing, passed that address to [Do] as the target and returns that
    same pointer; a successful [UnapproveMergeRequest] has called [Do]
    without a target, and never passes one. *)
Theorem successful_call_returns_the_decode_target
    (s : loc) (pid : PID) (mr : Z) (opt : option loc)
    (options : list OptionFunc) (st : Store)
    (m : option loc) (resp : option Response) :
  let decoded_into (zero : Object) (target : loc -> Target)
        (run : Result (option loc * option Response * option Err)
               * Store * list Event) :=
    exists c verb u body req st1 c',
      NewRequest c verb u body options st = (req, None, st1)
      /\ heap st1 !! fresh (dom (heap st1)) = None
      /\ m = Some (fresh (dom (heap st1)))
      /\ Do c' req (target (fresh (dom (heap st1)))) (alloc zero st1)
         = (resp, None, run.1.2)
      /\ run.2 = [EvNewRequest c verb u body options req None;
                  EvDo c' req (target (fresh (dom (heap st1)))) resp None] in
  ((ApproveMergeRequest s pid mr opt options st).1.1 = Ok (m, resp, None) ->
   decoded_into (OMergeRequestApprovals zeroMergeRequestApprovals)
     TargetMergeRequestApprovals
     (ApproveMergeRequest s pid mr opt options st))
  /\ ((ChangeApprovalConfiguration s pid mr opt options st).1.1
        = Ok (m, resp, None) ->
      decoded_into (OMergeRequest zeroMergeRequest) TargetMergeRequest
        (ChangeApprovalConfiguration s pid mr opt options st))
  /\ ((ChangeAllowedApprovers s pid mr opt options st).1.1
        = Ok (m, resp, None) ->
      decoded_into (OMergeRequest zeroMergeRequest) TargetMergeRequest
        (ChangeAllowedApprovers s pid mr opt options st))
  /\ ((ChangeProjectMergeRequestApprovalConfiguration s pid opt options st).1.1
        = Ok (m, resp, None) ->
      decoded_into (OMergeRequestApprovals zeroMergeRequestApprovals)
        TargetMergeRequestApprovals
        (ChangeProjectMergeRequestApprovalConfiguration s pid opt options st))
  /\ ((UnapproveMergeRequest s pid mr options st).1.1 = Ok (resp, None) ->
      exists c verb u body req st1 c',
        NewRequest c verb u body options st = (req, None, st1)
        /\ Do c' req TargetNil st1
           = (resp, None, (UnapproveMergeRequest s pid mr options st).1.2)
        /\ (UnapproveMergeRequest s pid mr options st).2
           = [EvNewRequest c verb u body options req None;
              EvDo c' req TargetNil resp None])
  /\ Forall (fun ev => event_target ev = None)
       (UnapproveMergeRequest s pid mr options st).2.
Proof.
  intros decoded_into. subst decoded_into. cbv beta.
  split; [ | split; [ | split; [ | split; [ | split ] ] ] ].
  all: run_cases; subst; cbn [snd fst app].
  all: try (intros Hr; discriminate Hr).
  all: try match goal with
       | |- _ = Ok (?r, None) -> _ =>
           is_var r; intros Hr; injection Hr as <- ->
       end.
  all: try (intros Hr; injection Hr as <- <-).
  all: repeat (apply Forall_cons_2 || apply Forall_nil_2); try reflexivity.
  all: do 7 eexists.
  all: repeat split; try eassumption; try reflexivity.
  all: apply fresh_not_in_heap.
Qed.

(** C4: when [Do] returns an error, the method returns that very error,
    and the methods that return a decoded struct return nil for it: so it
    is for every failed [Do] that a run has logged, and a run in which the
    request is built and [Do] fails ends that way. *)
Theorem Do_error_is_returned_unchanged
    (s : loc) (pid : PID) (mr : Z) (opt : option loc)
    (options : list OptionFunc) (st : Store)
    (c : ClientPtr) (req : option Request) (v : Target)
    (resp : option Response) (e : Err) :
  (In (EvDo c req v resp (Some e)) (ApproveMergeRequest s pid mr opt options st).2 ->
   exists r, (ApproveMergeRequest s pid mr opt options st).1.1 = Ok r
             /\ r.2 = Some e /\ r.1.1 = None)
  /\ (In (EvDo c req v resp (Some e)) (UnapproveMergeRequest s pid mr options st).2 ->
      exists r, (UnapproveMergeRequest s pid mr options st).1.1 = Ok r
                /\ r.2 = Some e)
  /\ (In (EvDo c req v resp (Some e))
        (ChangeApprovalConfiguration s pid mr opt options st).2 ->
      exists r, (ChangeApprovalConfiguration s pid mr opt options st).1.1 = Ok r
                /\ r.2 = Some e /\ r.1.1 = None)
  /\ (In (EvDo c req v resp (Some e))
        (ChangeAllowedApprovers s pid mr opt options st).2 ->
      exists r, (ChangeAllowedApprovers s pid mr opt options st).1.1 = Ok r
                /\ r.2 = Some e /\ r.1.1 = None)
  /\ (In (EvDo c req v resp (Some e))
        (ChangeProjectMergeRequestApprovalConfiguration s pid opt options st).2 ->
      exists r,
        (ChangeProjectMergeRequestApprovalConfiguration s pid opt options st).1.1
          = Ok r
        /\ r.2 = Some e /\ r.1.1 = None)
  /\ (forall (project : string) (svc svc1 : MergeRequestApprovalsService)
        (st1 st2 : Store),
        parseID pid = (project, None) ->
        heap st !! s = Some (OService svc) ->
        heap st1 !! s = Some (OService svc1) ->
        let mr_path (action : string) :=
          "projects/" +:+ pathEscape project +:+ "/merge_requests/"
          +:+ Fmt.itoa mr +:+ action in
        let m := fresh (dom (heap st1)) in
        let approvals :=
          alloc (OMergeRequestApprovals zeroMergeRequestApprovals) st1 in
        let merge_request := alloc (OMergeRequest zeroMergeRequest) st1 in
        (NewRequest (client svc) "POST" (mr_path "/approve")
           (BodyApproveMergeRequestOptions opt) options st = (req, None, st1) ->
         Do (client svc1) req (TargetMergeRequestApprovals m) approvals
           = (resp, Some e, st2) ->
         (ApproveMergeRequest s pid mr opt options st).1.1
         = Ok (None, resp, Some e))
        /\ (NewRequest (client svc) "POST" (mr_path "/unapprove") BodyNil
              options st = (req, None, st1) ->
            Do (client svc1) req TargetNil st1 = (resp, Some e, st2) ->
            (UnapproveMergeRequest s pid mr options st).1.1
            = Ok (resp, Some e))
        /\ (NewRequest (client svc) "POST" (mr_path "/approvals")
              (BodyChangeMergeRequestApprovalConfigurationOptions opt)
              options st = (req, None, st1) ->
            Do (client svc1) req (TargetMergeRequest m) merge_request
              = (resp, Some e, st2) ->
            (ChangeApprovalConfiguration s pid mr opt options st).1.1
            = Ok (None, resp, Some e))
        /\ (NewRequest (client svc) "PUT" (mr_path "/approvers")
              (BodyChangeMergeRequestAllowedApproversOptions opt)
              options st = (req, None, st1) ->
            Do (client svc1) req (TargetMergeRequest m) merge_request
              = (resp, Some e, st2) ->
            (ChangeAllowedApprovers s pid mr opt options st).1.1
            = Ok (None, resp, Some e))
        /\ (NewRequest (client svc) "POST"
              ("projects/" +:+ pathEscape project +:+ "/approvals")
              (BodyProjectMergeRequestApprovalSettings opt)
              options st = (req, None, st1) ->
            Do (client svc1) req (TargetMergeRequestApprovals m) approvals
              = (resp, Some e, st2) ->
            (ChangeProjectMergeRequestApprovalConfiguration s pid opt options
               st).1.1
            = Ok (None, resp, Some e))).
Proof.
  split; [ | split; [ | split; [ | split; [ | split ] ] ] ].
  1-5: run_cases; cbn [snd fst app In]; intros HIn; close_log;
    eexists; repeat split; cbn [fst snd]; congruence.
  intros project svc svc1 st1 st2 Hparse Hs Hs1 mr_path m approvals
    merge_request.
  subst mr_path m approvals merge_request. cbv beta.
  repeat split.
  all: failed_Do_run Hparse Hs Hs1.
Qed.

(** C10: when [Do] fails in a method that returns a decoded struct, the
    method returns the [Response] that [Do] produced, whatever it is, with
    the error, and nil for the struct: so it is for every failed [Do] that
    a run has logged, and a run in which the request is built and [Do]
    fails ends that way, in the store that [Do] left. *)
Theorem failed_Do_still_returns_its_Response
    (s : loc) (pid : PID) (mr : Z) (opt : option loc)
    (options : list OptionFunc) (st : Store)
    (c : ClientPtr) (req : option Request) (v : Target)
    (resp : option Response) (e : Err) :
  (In (EvDo c req v resp (Some e)) (ApproveMergeRequest s pid mr opt options st).2 ->
   (ApproveMergeRequest s pid mr opt options st).1.1 = Ok (None, resp, Some e))
  /\ (In (EvDo c req v resp (Some e))
        (ChangeApprovalConfiguration s pid mr opt options st).2 ->
      (ChangeApprovalConfiguration s pid mr opt options st).1.1
        = Ok (None, resp, Some e))
  /\ (In (EvDo c req v resp (Some e))
        (ChangeAllowedApprovers s pid mr opt options st).2 ->
      (ChangeAllowedApprovers s pid mr opt options st).1.1
        = Ok (None, resp, Some e))
  /\ (In (EvDo c req v resp (Some e))
        (ChangeProjectMergeRequestApprovalConfiguration s pid opt options st).2 ->
      (ChangeProjectMergeRequestApprovalConfiguration s pid opt options st).1.1
        = Ok (None, resp, Some e))
  /\ (forall (project : string) (svc svc1 : MergeRequestApprovalsService)
        (st1 st2 : Store),
        parseID pid = (project, None) ->
        heap st !! s = Some (OService svc) ->
        heap st1 !! s = Some (OService svc1) ->
        let mr_path (action : string) :=
          "projects/" +:+ pathEscape project +:+ "/merge_requests/"
          +:+ Fmt.itoa mr +:+ action in
        let m := fresh (dom (heap st1)) in
        let approvals :=
          alloc (OMergeRequestApprovals zeroMergeRequestApprovals) st1 in
        let merge_request := alloc (OMergeRequest zeroMergeRequest) st1 in
        (NewRequest (client svc) "POST" (mr_path "/approve")
           (BodyApproveMergeRequestOptions opt) options st = (req, None, st1) ->
         Do (client svc1) req (TargetMergeRequestApprovals m) approvals
           = (resp, Some e, st2) ->
         ApproveMergeRequest s pid mr opt options st
         = (Ok (None, resp, Some e), st2,
            [EvNewRequest (client svc) "POST" (mr_path "/approve")
               (BodyApproveMergeRequestOptions opt) options req None;
             EvDo (client svc1) req (TargetMergeRequestApprovals m) resp
               (Some e)]))
        /\ (NewRequest (client svc) "POST" (mr_path "/approvals")
              (BodyChangeMergeRequestApprovalConfigurationOptions opt)
              options st = (req, None, st1) ->
            Do (client svc1) req (TargetMergeRequest m) merge_request
              = (resp, Some e, st2) ->
            ChangeApprovalConfiguration s pid mr opt options st
            = (Ok (None, resp, Some e), st2,
               [EvNewRequest (client svc) "POST" (mr_path "/approvals")
                  (BodyChangeMergeRequestApprovalConfigurationOptions opt)
                  options req None;
                EvDo (client svc1) req (TargetMergeRequest m) resp (Some e)]))
        /\ (NewRequest (client svc) "PUT" (mr_path "/approvers")
              (BodyChangeMergeRequestAllowedApproversOptions opt)
              options st = (req, None, st1) ->
            Do (client svc1) req (TargetMergeRequest m) merge_request
              = (resp, Some e, st2) ->
            ChangeAllowedApprovers s pid mr opt options st
            = (Ok (None, resp, Some e), st2,
               [EvNewRequest (client svc) "PUT" (mr_path "/approvers")
                  (BodyChangeMergeRequestAllowedApproversOptions opt)
                  options req None;
                EvDo (client svc1) req (TargetMergeRequest m) resp (Some e)]))
        /\ (NewRequest (client svc) "POST"
              ("projects/" +:+ pathEscape project +:+ "/approvals")
              (BodyProjectMergeRequestApprovalSettings opt)
              options st = (req, None, st1) ->
            Do (client svc1) req (TargetMergeRequestApprovals m) approvals
              = (resp, Some e, st2) ->
            ChangeProjectMergeRequestApprovalConfiguration s pid opt options st
            = (Ok (None, resp, Some e), st2,
               [EvNewRequest (client svc) "POST"
                  ("projects/" +:+ pathEscape project +:+ "/approvals")
                  (BodyProjectMergeRequestApprovalSettings opt)
                  options req None;
                EvDo (client svc1) req (TargetMergeRequestApprovals m) resp
                  (Some e)]))).
Proof.
  split; [ | split; [ | split; [ | split ] ] ].
  1-4: run_cases; cbn [snd fst app In]; intros HIn; close_log.
  intros project svc svc1 st1 st2 Hparse Hs Hs1 mr_path m approvals
    merge_request.
  subst mr_path m approvals merge_request. cbv beta.
  repeat split.
  all: failed_Do_run Hparse Hs Hs1.
Qed.

(** ** Properties of the methods beyond the endpoints above *)

(** X1: [UnapproveMergeRequest], for an accepted project identifier, first
    builds a POST request for [projects/<id>/merge_requests/<mr>/unapprove]
    without a body, and when the request is built it returns whatever [Do]
    returns for it, response and error alike, without allocating. *)
Theorem UnapproveMergeRequest_returns_what_Do_returns
    (s : loc) (pid : PID) (mr : Z) (options : list OptionFunc) (st : Store)
    (project : string) (svc : MergeRequestApprovalsService) :
  parseID pid = (project, None) ->
  heap st !! s = Some (OService svc) ->
  let u := "projects/" +:+ pathEscape project +:+ "/merge_requests/"
           +:+ Fmt.itoa mr +:+ "/unapprove" in
  let built := NewRequest (client svc) "POST" u BodyNil options st in
  hd_error (UnapproveMergeRequest s pid mr options st).2
    = Some (EvNewRequest (client svc) "POST" u BodyNil options
              built.1.1 built.1.2)
  /\ (forall req st1 svc1 resp err st2,
        built = (req, None, st1) ->
        heap st1 !! s = Some (OService svc1) ->
        Do (client svc1) req TargetNil st1 = (resp, err, st2) ->
        UnapproveMergeRequest s pid mr options st
        = (Ok (resp, err), st2,
           [EvNewRequest (client svc) "POST" u BodyNil options req None;
            EvDo (client svc1) req TargetNil resp err])).
Proof.
  intros Hparse Hs u built. subst u built. split.
  - first_call Hparse Hs.
  - intros req st1 svc1 resp err st2 Hbuilt Hs1 HDo.
    run_to_NewRequest Hparse Hs. rewrite Hbuilt. cbv beta iota zeta.
    rewrite Hs1. cbv beta iota zeta. rewrite HDo. reflexivity.
Qed.

(** X2: [ChangeApprovalConfiguration], for an accepted project identifier,
    first builds a POST request for
    [projects/<id>/merge_requests/<iid>/approvals] with the options it was
    given, and when the request is built and [Do] succeeds it returns the
    [MergeRequest] struct that [Do] decoded into. *)
Theorem ChangeApprovalConfiguration_posts_to_approvals_path
    (s : loc) (pid : PID) (mergeRequestIID : Z) (opt : option loc)
    (options : list OptionFunc) (st : Store)
    (project : string) (svc : MergeRequestApprovalsService) :
  parseID pid = (project, None) ->
  heap st !! s = Some (OService svc) ->
  let u := "projects/" +:+ pathEscape project +:+ "/merge_requests/"
           +:+ Fmt.itoa mergeRequestIID +:+ "/approvals" in
  let body := BodyChangeMergeRequestApprovalConfigurationOptions opt in
  let built := NewRequest (client svc) "POST" u body options st in
  hd_error (ChangeApprovalConfiguration s pid mergeRequestIID opt options st).2
    = Some (EvNewRequest (client svc) "POST" u body options
              built.1.1 built.1.2)
  /\ (forall req st1 svc1 resp st2,
        built = (req, None, st1) ->
        heap st1 !! s = Some (OService svc1) ->
        let m := fresh (dom (heap st1)) in
        Do (client svc1) req (TargetMergeRequest m)
          (alloc (OMergeRequest zeroMergeRequest) st1)
          = (resp, None, st2) ->
        ChangeApprovalConfiguration s pid mergeRequestIID opt options st
        = (Ok (Some m, resp, None), st2,
           [EvNewRequest (client svc) "POST" u body options req None;
            EvDo (client svc1) req (TargetMergeRequest m) resp None])).
Proof.
  intros Hparse Hs u body built. subst u body built. split.
  - first_call Hparse Hs.
  - successful_run Hparse Hs.
Qed.

(** X3: when [NewRequest] fails, every method returns its error with a nil
    [Response] (and a nil struct), whatever request came with the error;
    nothing is allocated and [Do] is not called. *)
Theorem failed_NewRequest_ends_the_call
    (s : loc) (pid : PID) (mr : Z) (opt : option loc)
    (options : list OptionFunc) (st : Store)
    (project : string) (svc : MergeRequestApprovalsService)
    (req : option Request) (e : Err) (st1 : Store) :
  parseID pid = (project, None) ->
  heap st !! s = Some (OService svc) ->
  let mr_path (action : string) :=
    "projects/" +:+ pathEscape project +:+ "/merge_requests/"
    +:+ Fmt.itoa mr +:+ action in
  let c := client svc in
  (NewRequest c "POST" (mr_path "/approve")
     (BodyApproveMergeRequestOptions opt) options st = (req, Some e, st1) ->
   ApproveMergeRequest s pid mr opt options st
   = (Ok (None, None, Some e), st1,
      [EvNewRequest c "POST" (mr_path "/approve")
         (BodyApproveMergeRequestOptions opt) options req (Some e)]))
  /\ (NewRequest c "POST" (mr_path "/unapprove") BodyNil options st
      = (req, Some e, st1) ->
      UnapproveMergeRequest s pid mr options st
      = (Ok (None, Some e), st1,
         [EvNewRequest c "POST" (mr_path "/unapprove") BodyNil options req
            (Some e)]))
  /\ (NewRequest c "POST" (mr_path "/approvals")
        (BodyChangeMergeRequestApprovalConfigurationOptions opt) options st
      = (req, Some e, st1) ->
      ChangeApprovalConfiguration s pid mr opt options st
      = (Ok (None, None, Some e), st1,
         [EvNewRequest c "POST" (mr_path "/approvals")
            (BodyChangeMergeRequestApprovalConfigurationOptions opt) options
            req (Some e)]))
  /\ (NewRequest c "PUT" (mr_path "/approvers")
        (BodyChangeMergeRequestAllowedApproversOptions opt) options st
      = (req, Some e, st1) ->
      ChangeAllowedApprovers s pid mr opt options st
      = (Ok (None, None, Some e), st1,
         [EvNewRequest c "PUT" (mr_path "/approvers")
            (BodyChangeMergeRequestAllowedApproversOptions opt) options
            req (Some e)]))
  /\ (NewRequest c "POST" ("projects/" +:+ pathEscape project +:+ "/approvals")
        (BodyProjectMergeRequestApprovalSettings opt) options st
      = (req, Some e, st1) ->
      ChangeProjectMergeRequestApprovalConfiguration s pid opt options st
      = (Ok (None, None, Some e), st1,
         [EvNewRequest c "POST"
            ("projects/" +:+ pathEscape project +:+ "/approvals")
            (BodyProjectMergeRequestApprovalSettings opt) options
            req (Some e)])).
Proof.
  intros Hparse Hs mr_path c. subst mr_path c. cbv beta.
  repeat split.
  all: intros Hbuilt; run_to_NewRequest Hparse Hs; rewrite Hbuilt;
    reflexivity.
Qed.

(** X4: the calls of a run on the client are none, or one [NewRequest] with the
    caller's option functions, or that [NewRequest] returning no error
    followed by one [Do] on the request it returned. *)
Theorem client_calls_are_NewRequest_then_Do
    (s : loc) (pid : PID) (mr : Z) (opt : option loc)
    (options : list OptionFunc) (st : Store) :
  Forall
    (fun evs =>
       evs = []
       \/ (exists c verb u body req err,
             evs = [EvNewRequest c verb u body options req err])
       \/ (exists c verb u body req c' v resp err,
             evs = [EvNewRequest c verb u body options req None;
                    EvDo c' req v resp err]))
    (logs_of_methods s pid mr opt options st).
Proof.
  unfold logs_of_methods. repeat (apply Forall_cons_2 || apply Forall_nil_2).
  all: run_cases; cbn [snd fst app].
  all: first
    [ left; reflexivity
    | right; left; do 6 eexists; reflexivity
    | right; right; do 9 eexists; reflexivity ].
Qed.

(** X5: with a client that leaves the caller's objects alone, the struct that
    a successful call returns is at an address that held no object before
    the call: the result aliases nothing the caller had. *)
Theorem returned_struct_is_newly_allocated
    (s : loc) (pid : PID) (mr : Z) (opt : option loc)
    (options : list OptionFunc) (st : Store)
    (m : loc) (resp : option Response) :
  client_keeps_objects ->
  ((ApproveMergeRequest s pid mr opt options st).1.1
     = Ok (Some m, resp, None) -> heap st !! m = None)
  /\ ((ChangeApprovalConfiguration s pid mr opt options st).1.1
        = Ok (Some m, resp, None) -> heap st !! m = None)
  /\ ((ChangeAllowedApprovers s pid mr opt options st).1.1
        = Ok (Some m, resp, None) -> heap st !! m = None)
  /\ ((ChangeProjectMergeRequestApprovalConfiguration s pid opt options st).1.1
        = Ok (Some m, resp, None) -> heap st !! m = None).
Proof.
  intros [HNew _]. repeat split.
  all: run_cases; cbn [snd fst]; intros Hr; try discriminate Hr.
  all: injection Hr as <- <-.
  all: match goal with
       | |- ?h !! ?p = None => destruct (h !! p) as [obj|] eqn:Hobj
       end; [ exfalso | reflexivity ].
  all: match goal with
       | H : NewRequest _ _ _ _ _ _ = _ |- _ =>
           pose proof (HNew _ _ _ _ _ _ _ _ _ H _ _ Hobj) as Hobj1
       end.
  all: exact (fresh_is_not_allocated _ _ _ Hobj1 eq_refl).
Qed.

(** X6: a method called with an accepted project identifier on a receiver that
    points to no service struct panics before it calls the client and
    leaves the store as it was. *)
Theorem missing_receiver_panics_before_any_call
    (s : loc) (pid : PID) (mr : Z) (opt : option loc)
    (options : list OptionFunc) (st : Store) (project : string) :
  parseID pid = (project, None) ->
  (forall svc, heap st !! s <> Some (OService svc)) ->
  ApproveMergeRequest s pid mr opt options st = (Panic, st, [])
  /\ UnapproveMergeRequest s pid mr options st = (Panic, st, [])
  /\ ChangeApprovalConfiguration s pid mr opt options st = (Panic, st, [])
  /\ ChangeAllowedApprovers s pid mr opt options st = (Panic, st, [])
  /\ ChangeProjectMergeRequestApprovalConfiguration s pid opt options st
     = (Panic, st, []).
Proof.
  intros Hparse Hnone. repeat split.
  all: unfold_method; rewrite Hparse; cbv beta iota zeta.
  all: destruct (heap st !! s) as [[svc| | | | | |]|] eqn:Hs;
    try reflexivity.
  all: exfalso; exact (Hnone svc eq_refl).
Qed.

(** ** The request paths *)

(** A number printed by [%d] holds digits and a sign, no slash, and can be
    read back. *)
Lemma no_slash_digits (d : Decimal.uint) :
  no_slash (NilEmpty.string_of_uint d) = true.
Proof.
  induction d; cbn [NilEmpty.string_of_uint no_slash]; try reflexivity;
    exact IHd.
Qed.

Lemma no_slash_itoa (z : Z) : no_slash (Fmt.itoa z) = true.
Proof.
  unfold Fmt.itoa, NilZero.string_of_int, NilZero.string_of_uint.
  destruct (Z.to_int z) as [d|d]; destruct d; simpl; try reflexivity;
    apply no_slash_digits.
Qed.

Lemma itoa_read_back (z : Z) :
  NilZero.int_of_string (Fmt.itoa z) = Some (Z.to_int z).
Proof.
  unfold Fmt.itoa. apply NilZero.isi; destruct z as [|p|p];
    cbn [Z.to_int]; try discriminate.
  all: intros Heq; injection Heq as Heq;
    exact (DecimalPos.Unsigned.to_uint_nonnil p Heq).
Qed.

Lemma itoa_inj (z1 z2 : Z) : Fmt.itoa z1 = Fmt.itoa z2 -> z1 = z2.
Proof.
  intros Heq. apply DecimalZ.to_int_inj.
  pose proof (itoa_read_back z1) as H1. rewrite Heq, itoa_read_back in H1.
  congruence.
Qed.

(** The path each method asks for first, once the project identifier is
    accepted and the receiver points to a service struct. *)
Lemma first_urls_of_methods
    (s : loc) (pid : PID) (mr : Z) (opt : option loc)
    (options : list OptionFunc) (st : Store)
    (project : string) (svc : MergeRequestApprovalsService) :
  parseID pid = (project, None) ->
  heap st !! s = Some (OService svc) ->
  map first_url (logs_of_methods s pid mr opt options st)
  = [ Some ("projects/" +:+ pathEscape project +:+ "/merge_requests/"
            +:+ Fmt.itoa mr +:+ "/approve");
      Some ("projects/" +:+ pathEscape project +:+ "/merge_requests/"
            +:+ Fmt.itoa mr +:+ "/unapprove");
      Some ("projects/" +:+ pathEscape project +:+ "/merge_requests/"
            +:+ Fmt.itoa mr +:+ "/approvals");
      Some ("projects/" +:+ pathEscape project +:+ "/merge_requests/"
            +:+ Fmt.itoa mr +:+ "/approvers");
      Some ("projects/" +:+ pathEscape project +:+ "/approvals") ].
Proof.
  intros Hparse Hs. unfold logs_of_methods. cbn [map].
  repeat (f_equal; [ first_call Hparse Hs | ]).
  f_equal. first_call Hparse Hs.
Qed.

Lemma segments_merge_request_path (e : string) (mr : Z) (action : string) :
  no_slash e = true ->
  segments ("projects/" +:+ e +:+ "/merge_requests/" +:+ Fmt.itoa mr
            +:+ String "/" action)
  = "projects" :: e :: "merge_requests" :: Fmt.itoa mr :: segments action.
Proof.
  intros He.
  change ("projects/" +:+ e +:+ "/merge_requests/" +:+ Fmt.itoa mr
          +:+ String "/" action)
    with ("projects" +:+ String "/"
            (e +:+ String "/"
               ("merge_requests" +:+ String "/"
                  (Fmt.itoa mr +:+ String "/" action)))).
  rewrite (segments_slash "projects") by reflexivity.
  rewrite (segments_slash e) by exact He.
  rewrite (segments_slash "merge_requests") by reflexivity.
  rewrite (segments_slash (Fmt.itoa mr)) by apply no_slash_itoa.
  reflexivity.
Qed.

Lemma segments_project_path (e : string) (action : string) :
  no_slash e = true ->
  segments ("projects/" +:+ e +:+ String "/" action)
  = "projects" :: e :: segments action.
Proof.
  intros He.
  change ("projects/" +:+ e +:+ String "/" action)
    with ("projects" +:+ String "/" (e +:+ String "/" action)).
  rewrite (segments_slash "projects") by reflexivity.
  rewrite (segments_slash e) by exact He.
  reflexivity.
Qed.

(** X7: when the escaped project identifier holds no slash, the paths of the
    five methods split into these segments: the four merge request
    endpoints have five, the project endpoint three. *)
Theorem request_paths_split_into_segments
    (s : loc) (pid : PID) (mr : Z) (opt : option loc)
    (options : list OptionFunc) (st : Store)
    (project : string) (svc : MergeRequestApprovalsService) :
  parseID pid = (project, None) ->
  heap st !! s = Some (OService svc) ->
  no_slash (pathEscape project) = true ->
  map (fun evs => option_map segments (first_url evs))
    (logs_of_methods s pid mr opt options st)
  = [ Some ["projects"; pathEscape project; "merge_requests"; Fmt.itoa mr;
            "approve"];
      Some ["projects"; pathEscape project; "merge_requests"; Fmt.itoa mr;
            "unapprove"];
      Some ["projects"; pathEscape project; "merge_requests"; Fmt.itoa mr;
            "approvals"];
      Some ["projects"; pathEscape project; "merge_requests"; Fmt.itoa mr;
            "approvers"];
      Some ["projects"; pathEscape project; "approvals"] ].
Proof.
  intros Hparse Hs He.
  rewrite <- (map_map first_url (option_map segments)).
  rewrite (first_urls_of_methods _ _ _ _ _ _ _ _ Hparse Hs).
  cbn [map option_map].
  rewrite !(segments_merge_request_path _ _ _ He).
  rewrite (segments_project_path _ _ He). reflexivity.
Qed.

(** X8: called on the same project and merge request, the five methods ask
    for five different paths. *)
Theorem methods_address_distinct_paths
    (s : loc) (pid : PID) (mr : Z) (opt : option loc)
    (options : list OptionFunc) (st : Store)
    (project : string) (svc : MergeRequestApprovalsService) :
  parseID pid = (project, None) ->
  heap st !! s = Some (OService svc) ->
  NoDup (map first_url (logs_of_methods s pid mr opt options st)).
Proof.
  intros Hparse Hs.
  rewrite (first_urls_of_methods _ _ _ _ _ _ _ _ Hparse Hs).
  repeat (apply NoDup_cons_2 || apply NoDup_nil_2).
  all: rewrite ?elem_of_cons, elem_of_nil; intros Hin.
  all: repeat match goal with
       | H : _ \/ _ |- _ => destruct H as [H | H]
       | H : False |- _ => destruct H
       end.
  all: injection Hin as Hin.
  all: repeat match type of Hin with
       | String.append ?a _ = String.append ?a _ =>
           apply (inj (String.append a)) in Hin
       end.
  all: cbv beta iota delta [String.append] in Hin; discriminate Hin.
Qed.

(** X9: when the escaped project identifiers hold no slash, two calls of the
    same method that ask for the same path are for the same escaped project
    identifier and, at the merge request endpoints, the same merge request
    number. *)
Theorem request_path_determines_project_and_merge_request
    (s1 s2 : loc) (pid1 pid2 : PID) (mr1 mr2 : Z) (opt1 opt2 : option loc)
    (options1 options2 : list OptionFunc) (st1 st2 : Store)
    (project1 project2 : string) (svc1 svc2 : MergeRequestApprovalsService) :
  parseID pid1 = (project1, None) ->
  heap st1 !! s1 = Some (OService svc1) ->
  no_slash (pathEscape project1) = true ->
  parseID pid2 = (project2, None) ->
  heap st2 !! s2 = Some (OService svc2) ->
  no_slash (pathEscape project2) = true ->
  (first_url (ApproveMergeRequest s1 pid1 mr1 opt1 options1 st1).2
   = first_url (ApproveMergeRequest s2 pid2 mr2 opt2 options2 st2).2 ->
   pathEscape project1 = pathEscape project2 /\ mr1 = mr2)
  /\ (first_url (UnapproveMergeRequest s1 pid1 mr1 options1 st1).2
      = first_url (UnapproveMergeRequest s2 pid2 mr2 options2 st2).2 ->
      pathEscape project1 = pathEscape project2 /\ mr1 = mr2)
  /\ (first_url (ChangeApprovalConfiguration s1 pid1 mr1 opt1 options1 st1).2
      = first_url (ChangeApprovalConfiguration s2 pid2 mr2 opt2 options2 st2).2 ->
      pathEscape project1 = pathEscape project2 /\ mr1 = mr2)
  /\ (first_url (ChangeAllowedApprovers s1 pid1 mr1 opt1 options1 st1).2
      = first_url (ChangeAllowedApprovers s2 pid2 mr2 opt2 options2 st2).2 ->
      pathEscape project1 = pathEscape project2 /\ mr1 = mr2)
  /\ (first_url
        (ChangeProjectMergeRequestApprovalConfiguration s1 pid1 opt1 options1
           st1).2
      = first_url
          (ChangeProjectMergeRequestApprovalConfiguration s2 pid2 opt2 options2
             st2).2 ->
      pathEscape project1 = pathEscape project2).
Proof.
  intros Hparse1 Hs1 He1 Hparse2 Hs2 He2.
  pose proof (first_urls_of_methods s1 pid1 mr1 opt1 options1 st1 _ _
                Hparse1 Hs1) as H1.
  pose proof (first_urls_of_methods s2 pid2 mr2 opt2 options2 st2 _ _
                Hparse2 Hs2) as H2.
  unfold logs_of_methods in H1, H2. cbn [map] in H1, H2.
  injection H1 as -> -> -> -> ->. injection H2 as -> -> -> -> ->.
  split; [ | split; [ | split; [ | split ] ] ]; intros Hsame;
    apply (inj Some) in Hsame; apply (f_equal segments) in Hsame.
  5: { rewrite (segments_project_path _ _ He1),
         (segments_project_path _ _ He2) in Hsame.
       injection Hsame as Hsame. exact Hsame. }
  all: rewrite (segments_merge_request_path _ _ _ He1),
         (segments_merge_request_path _ _ _ He2) in Hsame.
  all: injection Hsame as Hproject Hmr.
  all: split; [ exact Hproject | apply itoa_inj; exact Hmr ].
Qed.

(** ** Results of separate calls *)

Lemma alloc_is_allocated (zero : Object) (st : Store) :
  heap (alloc zero st) !! fresh (dom (heap st)) = Some zero.
Proof. unfold alloc. cbn [heap]. apply lookup_insert_eq. Qed.

Lemma fresh_is_free (st : Store) :
  ~ is_Some (heap st !! fresh (dom (heap st))).
Proof.
  intros Hsome. apply (is_fresh (dom (heap st))). apply elem_of_dom.
  exact Hsome.
Qed.

(** With a client that frees nothing, the struct a successful call returns
    is allocated when the call ends and was not when it began. *)
Lemma returned_struct_allocated_by_the_call
    (s : loc) (pid : PID) (mr : Z) (opt : option loc)
    (options : list OptionFunc) (st : Store)
    (run : Result (option loc * option Response * option Err)
           * Store * list Event)
    (m : loc) (resp : option Response) :
  client_frees_nothing ->
  In run (struct_runs s pid mr opt options st) ->
  run.1.1 = Ok (Some m, resp, None) ->
  ~ is_Some (heap st !! m) /\ is_Some (heap run.1.2 !! m).
Proof.
  intros [HNew HDo] Hrun.
  destruct Hrun as [<- | [<- | [<- | [<- | []]]]].
  all: run_cases; cbn [snd fst]; intros Hr; try discriminate Hr.
  all: injection Hr as <- <-.
  all: split.
  all: match goal with
       | H : NewRequest _ _ _ _ _ _ = _ |- ~ _ =>
           intros Hsome; apply (HNew _ _ _ _ _ _ _ _ _ H) in Hsome;
           exact (fresh_is_free _ Hsome)
       | H : Do _ _ _ _ = _ |- is_Some _ =>
           apply (HDo _ _ _ _ _ _ _ H); rewrite alloc_is_allocated; eauto
       end.
Qed.

(** X10: with a client that frees nothing, two successful calls, the second
    run on the store the first one left, return different structs. *)
Theorem successive_calls_return_distinct_structs
    (s1 s2 : loc) (pid1 pid2 : PID) (mr1 mr2 : Z) (opt1 opt2 : option loc)
    (options1 options2 : list OptionFunc) (st : Store)
    (run1 run2 : Result (option loc * option Response * option Err)
                 * Store * list Event)
    (m1 m2 : loc) (resp1 resp2 : option Response) :
  client_frees_nothing ->
  In run1 (struct_runs s1 pid1 mr1 opt1 options1 st) ->
  run1.1.1 = Ok (Some m1, resp1, None) ->
  In run2 (struct_runs s2 pid2 mr2 opt2 options2 run1.1.2) ->
  run2.1.1 = Ok (Some m2, resp2, None) ->
  m1 <> m2.
Proof.
  intros Hclient Hrun1 Hok1 Hrun2 Hok2 Heq. subst m2.
  destruct (returned_struct_allocated_by_the_call _ _ _ _ _ _ _ _ _
              Hclient Hrun1 Hok1) as [_ Hafter].
  destruct (returned_struct_allocated_by_the_call _ _ _ _ _ _ _ _ _
              Hclient Hrun2 Hok2) as [Hbefore _].
  exact (Hbefore Hafter).
Qed.

End Properties.

(** * The embedding on concrete inputs *)

Example itoa_42 : Fmt.itoa 42 = "42".
Proof. reflexivity. Qed.

Example itoa_0 : Fmt.itoa 0 = "0".
Proof. reflexivity. Qed.

Example itoa_negative : Fmt.itoa (-7) = "-7".
Proof. reflexivity. Qed.

Example Sprintf_approve :
  Fmt.Sprintf "projects/%s/merge_requests/%d/approve"
    [Fmt.AStr "group%2Fapp"; Fmt.AInt 12]
  = "projects/group%2Fapp/merge_requests/12/approve".
Proof. reflexivity. Qed.

Example segments_approve :
  segments "projects/group%2Fapp/merge_requests/12/approve"
  = ["projects"; "group%2Fapp"; "merge_requests"; "12"; "approve"].
Proof. reflexivity. Qed.

Example sample_pathEscape_group :
  Sample.sample_pathEscape "group/app" = "group%2Fapp".
Proof. reflexivity. Qed.

Example UnapproveMergeRequest_sample_run :
  UnapproveMergeRequest 1%positive (Sample.PidInt 5) 12 [] (Sample.store 200)
  = (Ok (Some 200, None),
     {| heap := heap (Sample.store 200);
        world :=
          {| Sample.status := 200;
             Sample.received :=
               [ {| Sample.req_method := "POST";
                    Sample.req_url := "projects/5/merge_requests/12/unapprove";
                    Sample.req_body := BodyNil |} ] |} |},
     [ EvNewRequest 9%positive "POST" "projects/5/merge_requests/12/unapprove"
         BodyNil []
         (Some {| Sample.req_method := "POST";
                  Sample.req_url := "projects/5/merge_requests/12/unapprove";
                  Sample.req_body := BodyNil |})
         None;
       EvDo 9%positive
         (Some {| Sample.req_method := "POST";
                  Sample.req_url := "projects/5/merge_requests/12/unapprove";
                  Sample.req_body := BodyNil |})
         TargetNil (Some 200) None ]).
Proof. vm_compute. reflexivity. Qed.

(** * The theorems on the sample package *)

(** The sample client leaves the caller's objects alone. *)
Lemma sample_client_keeps_objects : client_keeps_objects.
Proof.
  split.
  - intros c method u opt options st req err st' Hcall l obj Hl.
    cbn in Hcall. unfold Sample.sample_NewRequest in Hcall.
    destruct (Sample.first_failure options); injection Hcall as _ _ <-;
      exact Hl.
  - intros c req v st resp err st' Hcall l obj Hl Hv.
    cbn in Hcall. unfold Sample.sample_Do in Hcall.
    destruct req as [r|]; [ | injection Hcall as _ _ <-; exact Hl ].
    destruct (Sample.status (world st) =? 0);
      [ injection Hcall as _ _ <-; exact Hl | ].
    destruct (400 <=? Sample.status (world st));
      [ injection Hcall as _ _ <-; exact Hl | ].
    injection Hcall as _ _ <-. cbn [heap].
    destruct v as [|p|p]; cbn [Sample.decode target_loc] in *;
      [ exact Hl | | ].
    all: rewrite lookup_insert_ne; [ exact Hl | congruence ].
Qed.

Lemma rejected_pid_returns_parse_error_without_effect_witness :
  parseID Sample.PidOther = ("", Some "invalid ID type")
  /\ ApproveMergeRequest 1%positive Sample.PidOther 12 (Some 2%positive) []
       (Sample.store 200)
     = (Ok (None, None, Some "invalid ID type"), Sample.store 200, []).
Proof.
  split; [ reflexivity | ].
  exact (proj1 (rejected_pid_returns_parse_error_without_effect
                  1%positive Sample.PidOther 12 (Some 2%positive) []
                  (Sample.store 200) "" "invalid ID type" eq_refl)).
Defined.

Lemma at_most_one_request_cycle_witness :
  let evs :=
    (ChangeProjectMergeRequestApprovalConfiguration 1%positive (Sample.PidInt 5)
       (Some 5%positive) [Some "no token"] (Sample.store 200)).2 in
  hd_error evs
  = Some (EvNewRequest 9%positive "POST" "projects/5/approvals"
            (BodyProjectMergeRequestApprovalSettings (Some 5%positive))
            [Some "no token"] None (Some "no token"))
  /\ count_Do evs = 0%nat.
Proof.
  split; [ reflexivity | ].
  pose proof (at_most_one_request_cycle 1%positive (Sample.PidInt 5) 12
                (Some 5%positive) [Some "no token"] (Sample.store 200)) as H.
  unfold logs_of_methods in H.
  do 4 (apply Forall_cons in H as [_ H]).
  apply Forall_cons in H as [(_ & _ & Hbuild) _].
  eapply Hbuild.
  - left. reflexivity.
  - reflexivity.
  - reflexivity.
Defined.

Lemma returned_error_comes_from_parseID_or_client_witness :
  let run := ChangeApprovalConfiguration 1%positive (Sample.PidInt 5) 12
               (Some 3%positive) [Some "no token"] (Sample.store 200) in
  run.1.1 = Ok (None, None, Some "no token")
  /\ ((parseID (Sample.PidInt 5)).2 = Some "no token"
      \/ exists ev, In ev run.2 /\ event_error ev = Some "no token").
Proof.
  cbv zeta. split; [ reflexivity | ].
  pose proof (returned_error_comes_from_parseID_or_client 1%positive
                (Sample.PidInt 5) 12 (Some 3%positive) [Some "no token"]
                (Sample.store 200) "no token") as H.
  cbv zeta in H. destruct H as (_ & _ & H & _).
  exact (H (None, None, Some "no token") eq_refl eq_refl).
Defined.

Lemma methods_leave_objects_unchanged_witness :
  heap (Sample.store 201) !! 2%positive
  = Some (OApproveMergeRequestOptions {| SHA := Some "abc" |})
  /\ heap (ApproveMergeRequest 1%positive (Sample.PidString "group/app") 12
             (Some 2%positive) [] (Sample.store 201)).1.2 !! 2%positive
     = Some (OApproveMergeRequestOptions {| SHA := Some "abc" |}).
Proof.
  split; [ reflexivity | ].
  exact (proj1 (methods_leave_objects_unchanged 1%positive
                  (Sample.PidString "group/app") 12 (Some 2%positive) []
                  (Sample.store 201) 2%positive _
                  sample_client_keeps_objects eq_refl)).
Defined.

Lemma ApproveMergeRequest_posts_to_approve_path_witness :
  let run := ApproveMergeRequest 1%positive (Sample.PidString "group/app") 12
               (Some 2%positive) [] (Sample.store 201) in
  let req := {| Sample.req_method := "POST";
                Sample.req_url := "projects/group%2Fapp/merge_requests/12/approve";
                Sample.req_body :=
                  BodyApproveMergeRequestOptions (Some 2%positive) |} in
  parseID (Sample.PidString "group/app") = ("group/app", None)
  /\ heap (Sample.store 201) !! 1%positive
     = Some (OService {| client := 9%positive |})
  /\ hd_error run.2
     = Some (EvNewRequest 9%positive "POST"
               "projects/group%2Fapp/merge_requests/12/approve"
               (BodyApproveMergeRequestOptions (Some 2%positive)) []
               (Some req) None)
  /\ run.1.1 = Ok (Some 6%positive, Some 201, None)
  /\ run.2
     = [ EvNewRequest 9%positive "POST"
           "projects/group%2Fapp/merge_requests/12/approve"
           (BodyApproveMergeRequestOptions (Some 2%positive)) [] (Some req) None;
         EvDo 9%positive (Some req) (TargetMergeRequestApprovals 6%positive)
           (Some 201) None ].
Proof.
  cbv zeta.
  pose proof (ApproveMergeRequest_posts_to_approve_path 1%positive
                (Sample.PidString "group/app") 12 (Some 2%positive) []
                (Sample.store 201) "group/app" {| client := 9%positive |}
                eq_refl eq_refl) as H.
  cbv zeta in H. destruct H as [Hfirst Hrun].
  split; [ reflexivity | ]. split; [ reflexivity | ].
  split; [ exact Hfirst | ].
  rewrite (Hrun _ _ _ _ _ eq_refl eq_refl eq_refl).
  split; reflexivity.
Defined.


Lemma ChangeProjectMergeRequestApprovalConfiguration_posts_to_project_path_witness :
  let run := ChangeProjectMergeRequestApprovalConfiguration 1%positive
               (Sample.PidString "group/app") (Some 5%positive) []
               (Sample.store 200) in
  let req := {| Sample.req_method := "POST";
                Sample.req_url := "projects/group%2Fapp/approvals";
                Sample.req_body :=
                  BodyProjectMergeRequestApprovalSettings (Some 5%positive) |} in
  parseID (Sample.PidString "group/app") = ("group/app", None)
  /\ heap (Sample.store 200) !! 1%positive
     = Some (OService {| client := 9%positive |})
  /\ no_slash (pathEscape "group/app") = true
  /\ hd_error run.2
     = Some (EvNewRequest 9%positive "POST" "projects/group%2Fapp/approvals"
               (BodyProjectMergeRequestApprovalSettings (Some 5%positive))
               [] (Some req) None)
  /\ run.1.1 = Ok (Some 6%positive, Some 200, None)
  /\ segments "projects/group%2Fapp/approvals"
     = ["projects"; "group%2Fapp"; "approvals"].
Proof.
  cbv zeta.
  pose proof (ChangeProjectMergeRequestApprovalConfiguration_posts_to_project_path
                1%positive (Sample.PidString "group/app") (Some 5%positive) []
                (Sample.store 200) "group/app" {| client := 9%positive |}
                eq_refl eq_refl) as H.
  cbv zeta in H. destruct H as (Hfirst & Hrun & Hsegments).
  split; [ reflexivity | ]. split; [ reflexivity | ].
  split; [ reflexivity | ]. split; [ exact Hfirst | ].
  split; [ | exact (Hsegments eq_refl) ].
  rewrite (Hrun _ _ _ _ _ eq_refl eq_refl eq_refl). reflexivity.
Defined.

(** * Where the code departs from the specification *)

(** C1 as stated fails for [UnapproveMergeRequest]: a successful call hands
    [Do] no target to decode into. *)
Lemma UnapproveMergeRequest_passes_no_target :
  let run := UnapproveMergeRequest 1%positive (Sample.PidInt 5) 12 []
               (Sample.store 200) in
  run.1.1 = Ok (Some 200, None)
  /\ count_Do run.2 = 1%nat
  /\ ~ (exists ev p, In ev run.2 /\ event_target ev = Some p).
Proof.
  cbv zeta. split; [ reflexivity | ]. split; [ reflexivity | ].
  intros (ev & p & HIn & Htarget).
  vm_compute in HIn. destruct HIn as [<- | [<- | []]]; discriminate Htarget.
Qed.

(** C2 as stated fails when [parseID] rejects the identifier: the method
    returns an error although no call was made on the client. *)
Lemma parse_error_is_returned_before_any_client_call :
  let run := ApproveMergeRequest 1%positive Sample.PidOther 12
               (Some 2%positive) [] (Sample.store 200) in
  run.1.1 = Ok (None, None, Some "invalid ID type")
  /\ run.2 = []
  /\ ~ (exists ev, In ev run.2 /\ event_error ev = Some "invalid ID type").
Proof.
  cbv zeta. split; [ reflexivity | ]. split; [ reflexivity | ].
  intros (ev & HIn & _). vm_compute in HIn. exact HIn.
Qed.

(** * Further properties on the sample package *)

Lemma UnapproveMergeRequest_returns_what_Do_returns_witness :
  let run := UnapproveMergeRequest 1%positive (Sample.PidString "group/app") 12
               [] (Sample.store 500) in
  parseID (Sample.PidString "group/app") = ("group/app", None)
  /\ heap (Sample.store 500) !! 1%positive
     = Some (OService {| client := 9%positive |})
  /\ first_url run.2
     = Some "projects/group%2Fapp/merge_requests/12/unapprove"
  /\ run.1.1 = Ok (Some 500, Some "request failed")
  /\ heap run.1.2 = heap (Sample.store 500).
Proof.
  cbv zeta.
  pose proof (UnapproveMergeRequest_returns_what_Do_returns 1%positive
                (Sample.PidString "group/app") 12 [] (Sample.store 500)
                "group/app" {| client := 9%positive |} eq_refl eq_refl) as H.
  cbv zeta in H. destruct H as [_ Hrun].
  split; [ reflexivity | ]. split; [ reflexivity | ].
  rewrite (Hrun _ _ _ _ _ _ eq_refl eq_refl eq_refl).
  repeat split.
Defined.

Lemma ChangeApprovalConfiguration_posts_to_approvals_path_witness :
  let run := ChangeApprovalConfiguration 1%positive (Sample.PidInt 5) 12
               (Some 3%positive) [] (Sample.store 200) in
  let req := {| Sample.req_method := "POST";
                Sample.req_url := "projects/5/merge_requests/12/approvals";
                Sample.req_body :=
                  BodyChangeMergeRequestApprovalConfigurationOptions
                    (Some 3%positive) |} in
  parseID (Sample.PidInt 5) = ("5", None)
  /\ heap (Sample.store 200) !! 1%positive
     = Some (OService {| client := 9%positive |})
  /\ hd_error run.2
     = Some (EvNewRequest 9%positive "POST"
               "projects/5/merge_requests/12/approvals"
               (BodyChangeMergeRequestApprovalConfigurationOptions
                  (Some 3%positive))
               [] (Some req) None)
  /\ run.1.1 = Ok (Some 6%positive, Some 200, None)
  /\ heap run.1.2 !! 6%positive = Some (OMergeRequest 7).
Proof.
  cbv zeta.
  pose proof (ChangeApprovalConfiguration_posts_to_approvals_path 1%positive
                (Sample.PidInt 5) 12 (Some 3%positive) []
                (Sample.store 200) "5" {| client := 9%positive |}
                eq_refl eq_refl) as H.
  cbv zeta in H. destruct H as [Hfirst Hrun].
  split; [ reflexivity | ]. split; [ reflexivity | ].
  split; [ exact Hfirst | ].
  rewrite (Hrun _ _ _ _ _ eq_refl eq_refl eq_refl).
  split; reflexivity.
Defined.

Lemma failed_NewRequest_ends_the_call_witness :
  parseID (Sample.PidInt 5) = ("5", None)
  /\ heap (Sample.store 200) !! 1%positive
     = Some (OService {| client := 9%positive |})
  /\ NewRequest 9%positive "PUT" "projects/5/merge_requests/12/approvers"
       (BodyChangeMergeRequestAllowedApproversOptions (Some 4%positive))
       [None; Some "no token"] (Sample.store 200)
     = (None, Some "no token", Sample.store 200)
  /\ ChangeAllowedApprovers 1%positive (Sample.PidInt 5) 12 (Some 4%positive)
       [None; Some "no token"] (Sample.store 200)
     = (Ok (None, None, Some "no token"), Sample.store 200,
        [EvNewRequest 9%positive "PUT" "projects/5/merge_requests/12/approvers"
           (BodyChangeMergeRequestAllowedApproversOptions (Some 4%positive))
           [None; Some "no token"] None (Some "no token")]).
Proof.
  pose proof (failed_NewRequest_ends_the_call 1%positive (Sample.PidInt 5) 12
                (Some 4%positive) [None; Some "no token"] (Sample.store 200)
                "5" {| client := 9%positive |} None "no token"
                (Sample.store 200) eq_refl eq_refl) as H.
  cbv zeta in H. destruct H as (_ & _ & _ & H & _).
  split; [ reflexivity | ]. split; [ reflexivity | ].
  split; [ reflexivity | ]. exact (H eq_refl).
Defined.

Lemma returned_struct_is_newly_allocated_witness :
  (ChangeProjectMergeRequestApprovalConfiguration 1%positive (Sample.PidInt 5)
     (Some 5%positive) [] (Sample.store 200)).1.1
  = Ok (Some 6%positive, Some 200, None)
  /\ heap (Sample.store 200) !! 6%positive = None.
Proof.
  split; [ reflexivity | ].
  exact (proj2 (proj2 (proj2 (returned_struct_is_newly_allocated 1%positive
                                (Sample.PidInt 5) 12 (Some 5%positive) []
                                (Sample.store 200) 6%positive (Some 200)
                                sample_client_keeps_objects)))
           eq_refl).
Defined.

Lemma missing_receiver_panics_before_any_call_witness :
  parseID (Sample.PidInt 5) = ("5", None)
  /\ heap (Sample.store 200) !! 7%positive = None
  /\ ApproveMergeRequest 7%positive (Sample.PidInt 5) 12 (Some 2%positive) []
       (Sample.store 200)
     = (Panic, Sample.store 200, []).
Proof.
  split; [ reflexivity | ]. split; [ reflexivity | ].
  refine (proj1 (missing_receiver_panics_before_any_call 7%positive
                   (Sample.PidInt 5) 12 (Some 2%positive) []
                   (Sample.store 200) "5" eq_refl _)).
  intros svc Hsvc. vm_compute in Hsvc. discriminate Hsvc.
Defined.

Lemma request_paths_split_into_segments_witness :
  parseID (Sample.PidString "group/app") = ("group/app", None)
  /\ heap (Sample.store 200) !! 1%positive
     = Some (OService {| client := 9%positive |})
  /\ no_slash (pathEscape "group/app") = true
  /\ map (fun evs => option_map segments (first_url evs))
       (logs_of_methods 1%positive (Sample.PidString "group/app") 12 None []
          (Sample.store 200))
     = [ Some ["projects"; "group%2Fapp"; "merge_requests"; "12"; "approve"];
         Some ["projects"; "group%2Fapp"; "merge_requests"; "12"; "unapprove"];
         Some ["projects"; "group%2Fapp"; "merge_requests"; "12"; "approvals"];
         Some ["projects"; "group%2Fapp"; "merge_requests"; "12"; "approvers"];
         Some ["projects"; "group%2Fapp"; "approvals"] ].
Proof.
  split; [ reflexivity | ]. split; [ reflexivity | ].
  split; [ reflexivity | ].
  exact (request_paths_split_into_segments 1%positive
           (Sample.PidString "group/app") 12 None [] (Sample.store 200)
           "group/app" {| client := 9%positive |} eq_refl eq_refl eq_refl).
Defined.

Lemma methods_address_distinct_paths_witness :
  parseID (Sample.PidInt 5) = ("5", None)
  /\ heap (Sample.store 200) !! 1%positive
     = Some (OService {| client := 9%positive |})
  /\ NoDup (map first_url
              (logs_of_methods 1%positive (Sample.PidInt 5) 12 None []
                 (Sample.store 200))).
Proof.
  split; [ reflexivity | ]. split; [ reflexivity | ].
  exact (methods_address_distinct_paths 1%positive (Sample.PidInt 5) 12 None
           [] (Sample.store 200) "5" {| client := 9%positive |}
           eq_refl eq_refl).
Defined.

Lemma request_path_determines_project_and_merge_request_witness :
  first_url (ApproveMergeRequest 1%positive (Sample.PidInt 5) 12 None []
               (Sample.store 200)).2
  = first_url (ApproveMergeRequest 1%positive (Sample.PidString "5") 12
                 (Some 2%positive) [Some "no token"] (Sample.store 500)).2
  /\ pathEscape "5" = pathEscape "5" /\ 12 = 12.
Proof.
  split; [ reflexivity | ].
  exact (proj1 (request_path_determines_project_and_merge_request
                  1%positive 1%positive (Sample.PidInt 5) (Sample.PidString "5")
                  12 12 None (Some 2%positive) [] [Some "no token"]
                  (Sample.store 200) (Sample.store 500) "5" "5"
                  {| client := 9%positive |} {| client := 9%positive |}
                  eq_refl eq_refl eq_refl eq_refl eq_refl eq_refl)
           eq_refl).
Defined.

Lemma sample_client_frees_nothing : client_frees_nothing.
Proof.
  split.
  - intros c method u opt options st req err st' Hcall l Hl.
    cbn in Hcall. unfold Sample.sample_NewRequest in Hcall.
    destruct (Sample.first_failure options); injection Hcall as _ _ <-;
      exact Hl.
  - intros c req v st resp err st' Hcall l Hl.
    cbn in Hcall. unfold Sample.sample_Do in Hcall.
    destruct req as [r|]; [ | injection Hcall as _ _ <-; exact Hl ].
    destruct (Sample.status (world st) =? 0);
      [ injection Hcall as _ _ <-; exact Hl | ].
    destruct (400 <=? Sample.status (world st));
      [ injection Hcall as _ _ <-; exact Hl | ].
    injection Hcall as _ _ <-. cbn [heap].
    destruct v as [|p|p]; cbn [Sample.decode]; [ exact Hl | | ].
    all: destruct (decide (p = l)) as [-> | Hne];
      [ rewrite lookup_insert_eq; eauto
      | rewrite lookup_insert_ne by exact Hne; exact Hl ].
Qed.

Lemma successive_calls_return_distinct_structs_witness :
  let run1 := ApproveMergeRequest 1%positive (Sample.PidInt 5) 12
                (Some 2%positive) [] (Sample.store 201) in
  let run2 := ChangeAllowedApprovers 1%positive (Sample.PidInt 5) 12
                (Some 4%positive) [] run1.1.2 in
  run1.1.1 = Ok (Some 6%positive, Some 201, None)
  /\ run2.1.1 = Ok (Some 7%positive, Some 201, None)
  /\ 6%positive <> 7%positive.
Proof.
  cbv zeta. split; [ reflexivity | ]. split; [ reflexivity | ].
  refine (successive_calls_return_distinct_structs 1%positive 1%positive
            (Sample.PidInt 5) (Sample.PidInt 5) 12 12 (Some 2%positive)
            (Some 4%positive) [] [] (Sample.store 201)
            (ApproveMergeRequest 1%positive (Sample.PidInt 5) 12
               (Some 2%positive) [] (Sample.store 201))
            (ChangeAllowedApprovers 1%positive (Sample.PidInt 5) 12
               (Some 4%positive) []
               (ApproveMergeRequest 1%positive (Sample.PidInt 5) 12
                  (Some 2%positive) [] (Sample.store 201)).1.2)
            6%positive 7%positive (Some 201) (Some 201)
            sample_client_frees_nothing _ eq_refl _ eq_refl).
  - left. reflexivity.
  - right. right. left. reflexivity.
Defined.

(** * The theorems on returned structs and failed requests, on the sample
    package *)

Lemma successful_call_returns_the_decode_target_witness :
  (ApproveMergeRequest 1%positive (Sample.PidString "group/app") 12
     (Some 2%positive) [] (Sample.store 201)).1.1
  = Ok (Some 6%positive, Some 201, None)
  /\ (exists st1 : Store,
        heap st1 !! fresh (dom (heap st1)) = None
        /\ Some 6%positive = Some (fresh (dom (heap st1))))
  /\ (ChangeAllowedApprovers 1%positive (Sample.PidInt 5) 12
        (Some 4%positive) [] (Sample.store 200)).1.1
     = Ok (Some 6%positive, Some 200, None)
  /\ (exists st1 : Store,
        heap st1 !! fresh (dom (heap st1)) = None
        /\ Some 6%positive = Some (fresh (dom (heap st1))))
  /\ (UnapproveMergeRequest 1%positive (Sample.PidInt 5) 12 []
        (Sample.store 200)).1.1
     = Ok (Some 200, None)
  /\ (exists c req,
        In (EvDo c req TargetNil (Some 200) None)
          (UnapproveMergeRequest 1%positive (Sample.PidInt 5) 12 []
             (Sample.store 200)).2).
Proof.
  split; [ reflexivity | ]. split.
  { pose proof (successful_call_returns_the_decode_target 1%positive
                  (Sample.PidString "group/app") 12 (Some 2%positive) []
                  (Sample.store 201) (Some 6%positive) (Some 201)) as H.
    cbv zeta beta in H. destruct H as (H & _).
    destruct (H eq_refl)
      as (c & verb & u & body & req & st1 & c' & _ & Hfree & Hm & _).
    exists st1. split; [ exact Hfree | exact Hm ]. }
  split; [ reflexivity | ]. split.
  { pose proof (successful_call_returns_the_decode_target 1%positive
                  (Sample.PidInt 5) 12 (Some 4%positive) []
                  (Sample.store 200) (Some 6%positive) (Some 200)) as H.
    cbv zeta beta in H. destruct H as (_ & _ & H & _).
    destruct (H eq_refl)
      as (c & verb & u & body & req & st1 & c' & _ & Hfree & Hm & _).
    exists st1. split; [ exact Hfree | exact Hm ]. }
  split; [ reflexivity | ].
  pose proof (successful_call_returns_the_decode_target 1%positive
                (Sample.PidInt 5) 12 None [] (Sample.store 200)
                None (Some 200)) as H.
  cbv zeta beta in H. destruct H as (_ & _ & _ & _ & H & _).
  destruct (H eq_refl)
    as (c & verb & u & body & req & st1 & c' & _ & _ & Hlog).
  exists c', req. rewrite Hlog. right. left. reflexivity.
Defined.

Lemma Do_error_is_returned_unchanged_witness :
  (ApproveMergeRequest 1%positive (Sample.PidInt 5) 12 (Some 2%positive) []
     (Sample.store 0)).1.1
  = Ok (None, None, Some "connection refused")
  /\ (UnapproveMergeRequest 1%positive (Sample.PidInt 5) 12 []
        (Sample.store 0)).1.1
     = Ok (None, Some "connection refused")
  /\ (ChangeApprovalConfiguration 1%positive (Sample.PidInt 5) 12
        (Some 3%positive) [] (Sample.store 0)).1.1
     = Ok (None, None, Some "connection refused")
  /\ (ChangeAllowedApprovers 1%positive (Sample.PidInt 5) 12
        (Some 4%positive) [] (Sample.store 0)).1.1
     = Ok (None, None, Some "connection refused")
  /\ (ChangeProjectMergeRequestApprovalConfiguration 1%positive
        (Sample.PidInt 5) (Some 5%positive) [] (Sample.store 0)).1.1
     = Ok (None, None, Some "connection refused").
Proof.
  split; [ | split; [ | split; [ | split ] ] ].
  { epose proof (Do_error_is_returned_unchanged (T := Sample.types) 1%positive
                   (Sample.PidInt 5) 12 (Some 2%positive) [] (Sample.store 0)
                   9%positive _ TargetNil _ _) as H.
    destruct H as (_ & _ & _ & _ & _ & H).
    epose proof (H "5" {| client := 9%positive |} {| client := 9%positive |}
                   (Sample.store 0) _ eq_refl eq_refl eq_refl) as H'.
    cbv zeta beta in H'. destruct H' as (H' & _).
    exact (H' eq_refl eq_refl). }
  { epose proof (Do_error_is_returned_unchanged (T := Sample.types) 1%positive
                   (Sample.PidInt 5) 12 None [] (Sample.store 0)
                   9%positive _ TargetNil _ _) as H.
    destruct H as (_ & _ & _ & _ & _ & H).
    epose proof (H "5" {| client := 9%positive |} {| client := 9%positive |}
                   (Sample.store 0) _ eq_refl eq_refl eq_refl) as H'.
    cbv zeta beta in H'. destruct H' as (_ & H' & _).
    exact (H' eq_refl eq_refl). }
  { epose proof (Do_error_is_returned_unchanged (T := Sample.types) 1%positive
                   (Sample.PidInt 5) 12 (Some 3%positive) [] (Sample.store 0)
                   9%positive _ TargetNil _ _) as H.
    destruct H as (_ & _ & _ & _ & _ & H).
    epose proof (H "5" {| client := 9%positive |} {| client := 9%positive |}
                   (Sample.store 0) _ eq_refl eq_refl eq_refl) as H'.
    cbv zeta beta in H'. destruct H' as (_ & _ & H' & _).
    exact (H' eq_refl eq_refl). }
  { epose proof (Do_error_is_returned_unchanged (T := Sample.types) 1%positive
                   (Sample.PidInt 5) 12 (Some 4%positive) [] (Sample.store 0)
                   9%positive _ TargetNil _ _) as H.
    destruct H as (_ & _ & _ & _ & _ & H).
    epose proof (H "5" {| client := 9%positive |} {| client := 9%positive |}
                   (Sample.store 0) _ eq_refl eq_refl eq_refl) as H'.
    cbv zeta beta in H'. destruct H' as (_ & _ & _ & H' & _).
    exact (H' eq_refl eq_refl). }
  { epose proof (Do_error_is_returned_unchanged (T := Sample.types) 1%positive
                   (Sample.PidInt 5) 12 (Some 5%positive) [] (Sample.store 0)
                   9%positive _ TargetNil _ _) as H.
    destruct H as (_ & _ & _ & _ & _ & H).
    epose proof (H "5" {| client := 9%positive |} {| client := 9%positive |}
                   (Sample.store 0) _ eq_refl eq_refl eq_refl) as H'.
    cbv zeta beta in H'. destruct H' as (_ & _ & _ & _ & H').
    exact (H' eq_refl eq_refl). }
Defined.

Lemma failed_Do_still_returns_its_Response_witness :
  (exists st2 log,
     ApproveMergeRequest 1%positive (Sample.PidInt 5) 12 (Some 2%positive) []
       (Sample.store 500)
     = (Ok (None, Some 500, Some "request failed"), st2, log))
  /\ (exists st2 log,
        ChangeApprovalConfiguration 1%positive (Sample.PidInt 5) 12
          (Some 3%positive) [] (Sample.store 500)
        = (Ok (None, Some 500, Some "request failed"), st2, log))
  /\ (exists st2 log,
        ChangeAllowedApprovers 1%positive (Sample.PidInt 5) 12
          (Some 4%positive) [] (Sample.store 500)
        = (Ok (None, Some 500, Some "request failed"), st2, log))
  /\ (exists st2 log,
        ChangeProjectMergeRequestApprovalConfiguration 1%positive
          (Sample.PidInt 5) (Some 5%positive) [] (Sample.store 500)
        = (Ok (None, Some 500, Some "request failed"), st2, log)).
Proof.
  split; [ | split; [ | split ] ]; do 2 eexists.
  { epose proof (failed_Do_still_returns_its_Response (T := Sample.types) 1%positive
                   (Sample.PidInt 5) 12 (Some 2%positive) [] (Sample.store 500)
                   9%positive _ TargetNil _ _) as H.
    destruct H as (_ & _ & _ & _ & H).
    epose proof (H "5" {| client := 9%positive |} {| client := 9%positive |}
                   (Sample.store 500) _ eq_refl eq_refl eq_refl) as H'.
    cbv zeta beta in H'. destruct H' as (H' & _).
    exact (H' eq_refl eq_refl). }
  { epose proof (failed_Do_still_returns_its_Response (T := Sample.types) 1%positive
                   (Sample.PidInt 5) 12 (Some 3%positive) [] (Sample.store 500)
                   9%positive _ TargetNil _ _) as H.
    destruct H as (_ & _ & _ & _ & H).
    epose proof (H "5" {| client := 9%positive |} {| client := 9%positive |}
                   (Sample.store 500) _ eq_refl eq_refl eq_refl) as H'.
    cbv zeta beta in H'. destruct H' as (_ & H' & _).
    exact (H' eq_refl eq_refl). }
  { epose proof (failed_Do_still_returns_its_Response (T := Sample.types) 1%positive
                   (Sample.PidInt 5) 12 (Some 4%positive) [] (Sample.store 500)
                   9%positive _ TargetNil _ _) as H.
    destruct H as (_ & _ & _ & _ & H).
    epose proof (H "5" {| client := 9%positive |} {| client := 9%positive |}
                   (Sample.store 500) _ eq_refl eq_refl eq_refl) as H'.
    cbv zeta beta in H'. destruct H' as (_ & _ & H' & _).
    exact (H' eq_refl eq_refl). }
  { epose proof (failed_Do_still_returns_its_Response (T := Sample.types) 1%positive
                   (Sample.PidInt 5) 12 (Some 5%positive) [] (Sample.store 500)
                   9%positive _ TargetNil _ _) as H.
    destruct H as (_ & _ & _ & _ & H).
    epose proof (H "5" {| client := 9%positive |} {| client := 9%positive |}
                   (Sample.store 500) _ eq_refl eq_refl eq_refl) as H'.
    cbv zeta beta in H'. destruct H' as (_ & _ & _ & H').
    exact (H' eq_refl eq_refl). }
Defined.
